(** * write_it_template.js: the modal action dispatcher

    A shallow embedding of the browser-side script [write_it_template.js]
    and the properties of its three click handlers ([writeIt], [startIt],
    [explainMore]), of [copyContent] and of [closeWriter].

    The script is event driven: a handler runs up to its first [await],
    leaves a continuation behind, and the continuation runs when the
    browser settles the promise.  The page is therefore a state, the
    handlers and the settlements are events, and [step] is the transition
    function of the page. *)

From Stdlib Require Import NArith Ascii String.
From stdpp Require Import base numbers option list functions gmap strings.

Open Scope N_scope.
Set Warnings "-register-all".

(** ** JavaScript strings

    A JavaScript string is a sequence of UTF-16 code units.  The source
    writes its non-ASCII literals with [\u] escapes, which are code units
    already. *)

Module JsString.

Abbreviation jsstring := (list N).

(** An ASCII literal of the source, as code units. *)
Definition js (s : string) : jsstring :=
  map N_of_ascii (list_ascii_of_string s).

(** A literal of the source that contains double quotes: it is written here
    with an apostrophe at each place where the source has a double quote
    (code unit 34). *)
Definition html (s : string) : jsstring :=
  map (fun c => if c =? 39 then 34 else c) (js s).

Definition eqb (s t : jsstring) : bool := bool_decide (s = t).

Arguments js : simpl never.
Arguments html : simpl never.

(** [text.replace(/\n/g,"<br>")]: each match of the one-character pattern
    [\n] (code unit 10), left to right, becomes the replacement text. *)
Fixpoint replace_newlines (s : jsstring) : jsstring :=
  match s with
  | [] => []
  | c :: rest =>
      if c =? 10 then js "<br>" ++ replace_newlines rest
      else c :: replace_newlines rest
  end.

(** The pieces of [s] between newlines: what [s.split("\n")] returns. *)
Fixpoint split_newlines (s : jsstring) : list jsstring :=
  match s with
  | [] => [[]]
  | c :: rest =>
      if c =? 10 then [] :: split_newlines rest
      else match split_newlines rest with
           | [] => [[c]]
           | piece :: pieces => (c :: piece) :: pieces
           end
  end.

(** [pieces.join(sep)]. *)
Fixpoint join (sep : jsstring) (pieces : list jsstring) : jsstring :=
  match pieces with
  | [] => []
  | [piece] => piece
  | piece :: more => piece ++ sep ++ join sep more
  end.

(** *** JSON.stringify on strings (QuoteJSONString) *)

Definition hex_digit (n : N) : N :=
  if n <? 10 then 48 + n else 87 + n.

(** [\uXXXX] with lower-case hexadecimal digits. *)
Definition unicode_escape (c : N) : jsstring :=
  [92; 117; hex_digit (c / 4096 mod 16); hex_digit (c / 256 mod 16);
   hex_digit (c / 16 mod 16); hex_digit (c mod 16)].

Definition is_leading_surrogate (c : N) : bool :=
  (0xD800 <=? c) && (c <=? 0xDBFF).

Definition is_trailing_surrogate (c : N) : bool :=
  (0xDC00 <=? c) && (c <=? 0xDFFF).

(** The body of the quoted string: the short escapes, [\u] escapes for the
    other control characters and for surrogates that are not part of a pair,
    every other code point as it is. *)
Fixpoint quote_units (s : jsstring) : jsstring :=
  match s with
  | [] => []
  | c :: rest =>
      if c =? 8 then [92; 98] ++ quote_units rest
      else if c =? 9 then [92; 116] ++ quote_units rest
      else if c =? 10 then [92; 110] ++ quote_units rest
      else if c =? 12 then [92; 102] ++ quote_units rest
      else if c =? 13 then [92; 114] ++ quote_units rest
      else if c =? 34 then [92; 34] ++ quote_units rest
      else if c =? 92 then [92; 92] ++ quote_units rest
      else if c <? 32 then unicode_escape c ++ quote_units rest
      else if is_leading_surrogate c then
        match rest with
        | c2 :: rest2 =>
            if is_trailing_surrogate c2 then c :: c2 :: quote_units rest2
            else unicode_escape c ++ quote_units rest
        | [] => unicode_escape c
        end
      else if is_trailing_surrogate c then unicode_escape c ++ quote_units rest
      else c :: quote_units rest
  end.

Definition QuoteJSONString (s : jsstring) : jsstring :=
  [34] ++ quote_units s ++ [34].

(** How a reader of JSON decodes the body of a string literal: a backslash
    starts an escape, a bare double quote or control character is refused.
    It is the yardstick for what the quoting must not lose. *)
Definition unhex (c : N) : option N :=
  if (48 <=? c) && (c <=? 57) then Some (c - 48)
  else if (97 <=? c) && (c <=? 102) then Some (c - 87)
  else if (65 <=? c) && (c <=? 70) then Some (c - 55)
  else None.

Definition unhex4 (h1 h2 h3 h4 : N) : option N :=
  match unhex h1, unhex h2, unhex h3, unhex h4 with
  | Some a, Some b, Some c, Some d => Some (4096 * a + 256 * b + 16 * c + d)
  | _, _, _, _ => None
  end.

Definition unescape (e : N) : option N :=
  if e =? 98 then Some 8
  else if e =? 116 then Some 9
  else if e =? 110 then Some 10
  else if e =? 102 then Some 12
  else if e =? 114 then Some 13
  else if e =? 34 then Some 34
  else if e =? 92 then Some 92
  else if e =? 47 then Some 47
  else None.

Fixpoint unquote_units (s : jsstring) : option jsstring :=
  match s with
  | [] => Some []
  | c :: rest =>
      if c =? 92 then
        match rest with
        | [] => None
        | e :: rest1 =>
            if e =? 117 then
              match rest1 with
              | h1 :: h2 :: h3 :: h4 :: rest2 =>
                  match unhex4 h1 h2 h3 h4, unquote_units rest2 with
                  | Some u, Some r => Some (u :: r)
                  | _, _ => None
                  end
              | _ => None
              end
            else
              match unescape e, unquote_units rest1 with
              | Some u, Some r => Some (u :: r)
              | _, _ => None
              end
        end
      else if (c =? 34) || (c <? 32) then None
      else match unquote_units rest with
           | Some r => Some (c :: r)
           | None => None
           end
  end.

(** A code unit that the quoting passes through as it is, wherever it
    stands: no escape, no surrogate. *)
Definition plain_unit (c : N) : bool :=
  (32 <=? c) && negb (c =? 34) && negb (c =? 92)
  && negb (is_leading_surrogate c) && negb (is_trailing_surrogate c).

(** [JSON.stringify(o)] for an object literal whose property values are
    strings or [undefined] ([None]): a property whose value is [undefined] is
    left out, the others are written in order, without white space. *)
Definition JSON_stringify (o : list (jsstring * option jsstring)) : jsstring :=
  js "{" ++
  join (js ",")
    (omap (fun p => match p.2 with
                    | Some v => Some (QuoteJSONString p.1 ++ js ":" ++ QuoteJSONString v)
                    | None => None
                    end) o) ++
  js "}".

(** [s + v] where [v] is a string or [undefined]. *)
Definition concat_value (s : jsstring) (v : option jsstring) : jsstring :=
  s ++ default (js "undefined") v.

(** [v || d] where [v] is a string or [undefined]: the empty string is
    falsy. *)
Definition or_else (v : option jsstring) (d : jsstring) : jsstring :=
  match v with
  | Some (c :: rest) => c :: rest
  | _ => d
  end.

End JsString.

Import JsString.

(** ** JSON values and the coercions the script applies to them *)

(** A JSON number, by the two observations the script can make of it: its
    truth value ([false] for zero) and its decimal text. *)
Record number := { num_truthy : bool; num_text : jsstring }.

(** What [r.json()] can resolve to.  The members of an object are in source
    order; a name that occurs twice has the value of its last occurrence. *)
Inductive json :=
| JNull
| JBool (b : bool)
| JNum (n : number)
| JStr (s : jsstring)
| JArr (items : list json)
| JObj (members : list (jsstring * json)).

Inductive error_class := Error | TypeError | SyntaxError | DOMException.

(** A thrown value; the script reads nothing but [e.message]. *)
Record js_error := { err_class : error_class; message : jsstring }.

(** The result of evaluating an expression that can throw. *)
Inductive completion (A : Type) :=
| Return (a : A)
| Throw (e : js_error).

Arguments Return {A} a.
Arguments Throw {A} e.

Definition bind {A B} (c : completion A) (k : A -> completion B) : completion B :=
  match c with
  | Return a => k a
  | Throw e => Throw e
  end.

Notation "'let!' x ':=' c 'in' k" := (bind c (fun x => k))
  (at level 10, x name, c at level 100, k at level 200).

(** The messages of the [TypeError]s the engine raises for the script; each
    engine words them in its own way. *)
Class Engine := {
  null_read_message : jsstring;      (* reading a property of [null] *)
  not_function_message : jsstring;   (* calling a value that is not a function *)
  not_primitive_message : jsstring   (* an object without a usable [toString] *)
}.

(** The three placeholders that the server fills in when it renders the
    template. *)
Class Template := {
  SLUG : jsstring;
  CH : jsstring;
  BIGBET : jsstring
}.

Fixpoint member (k : jsstring) (members : list (jsstring * json)) : option json :=
  match members with
  | [] => None
  | (k', v) :: rest =>
      match member k rest with
      | Some w => Some w
      | None => if eqb k' k then Some v else None
      end
  end.

(** [ToBoolean]; [None] is [undefined]. *)
Definition ToBoolean (v : option json) : bool :=
  match v with
  | None => false
  | Some JNull => false
  | Some (JBool b) => b
  | Some (JNum n) => num_truthy n
  | Some (JStr s) => negb (eqb s [])
  | Some (JArr _) => true
  | Some (JObj _) => true
  end.

(** The operand of [if(v)] and the left operand of [v || w], when it is
    truthy. *)
Definition truthy (v : option json) : option json :=
  if ToBoolean v then v else None.

Section Coercions.
Context {engine : Engine}.

(** [d.k] for the two names the script reads, [error] and [content]: no
    prototype defines them, so only an object's own member answers, and
    [null] has no properties to read. *)
Definition Get (d : json) (k : jsstring) : completion (option json) :=
  match d with
  | JNull => Throw {| err_class := TypeError; message := null_read_message |}
  | JObj members => Return (member k members)
  | _ => Return None
  end.

(** [ToString].  An array joins its items with a comma, [null] items giving
    the empty string; an object answers through [Object.prototype.toString]
    unless a member of its own hides that method. *)
Fixpoint ToString (v : json) : completion jsstring :=
  match v with
  | JNull => Return (js "null")
  | JBool b => Return (if b then js "true" else js "false")
  | JNum n => Return (num_text n)
  | JStr s => Return s
  | JArr items =>
      (fix join_items (l : list json) : completion jsstring :=
         match l with
         | [] => Return []
         | x :: rest =>
             let! first := match x with
                           | JNull => Return []
                           | _ => ToString x
                           end in
             match rest with
             | [] => Return first
             | _ => let! others := join_items rest in
                    Return (first ++ js "," ++ others)
             end
         end) items
  | JObj members =>
      match member (js "toString") members with
      | Some _ => Throw {| err_class := TypeError; message := not_primitive_message |}
      | None => Return (js "[object Object]")
      end
  end.

(** [new Error(v)] for a value [v] that is not [undefined]. *)
Definition new_Error (v : json) : completion js_error :=
  let! m := ToString v in
  Return {| err_class := Error; message := m |}.

(** [text.replace(/\n/g,"<br>")]: only a string has the method. *)
Definition replace_call (text : json) : completion jsstring :=
  match text with
  | JStr s => Return (replace_newlines s)
  | _ => Throw {| err_class := TypeError; message := not_function_message |}
  end.

End Coercions.

(** ** The page *)

(** A triggering button: what the handlers read and write of it. *)
Record element := {
  disabled : bool;
  textContent : jsstring;
  dataset : gmap string jsstring
}.

Definition set_disabled (b : bool) (e : element) : element :=
  {| disabled := b; textContent := textContent e; dataset := dataset e |}.

Definition set_textContent (t : jsstring) (e : element) : element :=
  {| disabled := disabled e; textContent := t; dataset := dataset e |}.

Inductive action := write | start | explain.

Record request := {
  url : jsstring;
  method : jsstring;
  headers : list (jsstring * jsstring);
  body : jsstring
}.

(** A handler suspended at [await _callServer(...)]: which handler, on which
    button, and the request it sent. *)
Record call := {
  call_action : action;
  call_btn : nat;
  call_request : request
}.

(** The one function the script hands to [setTimeout]. *)
Inductive callback := restore_copy_label.

(** What the browser still owes the script. *)
Inductive task :=
| fetch_task (c : call)
| clipboard_task (text : jsstring)
| timer_task (delay : N) (cb : callback).

(** The page: the buttons by handle, the three parts of the overlay, the
    copy button, the script's global [lastContent], the clipboard, and the
    tasks in flight.  [wmContent] is the markup last assigned to the
    [innerHTML] of [#wmContent].

    The markup that goes with the script is taken to hold the elements the
    script looks up, [#writerOverlay], [#wmTitle], [#wmContent] and one
    [.wm-btn-copy], none of them inside another; the page is taken to be
    served where [navigator.clipboard] exists.  Each task the browser takes
    on gets the next free number, by which the browser later settles it. *)
Record page := {
  buttons : nat -> element;
  classList : list jsstring;
  wmTitle : jsstring;
  wmContent : jsstring;
  copy_button : jsstring;
  lastContent : json;
  clipboard : jsstring;
  pending : gmap nat task;
  next_id : nat
}.

Definition set_buttons (f : nat -> element) (s : page) : page :=
  {| buttons := f; classList := classList s; wmTitle := wmTitle s;
     wmContent := wmContent s; copy_button := copy_button s;
     lastContent := lastContent s; clipboard := clipboard s;
     pending := pending s; next_id := next_id s |}.

Definition set_classList (c : list jsstring) (s : page) : page :=
  {| buttons := buttons s; classList := c; wmTitle := wmTitle s;
     wmContent := wmContent s; copy_button := copy_button s;
     lastContent := lastContent s; clipboard := clipboard s;
     pending := pending s; next_id := next_id s |}.

Definition set_wmTitle (t : jsstring) (s : page) : page :=
  {| buttons := buttons s; classList := classList s; wmTitle := t;
     wmContent := wmContent s; copy_button := copy_button s;
     lastContent := lastContent s; clipboard := clipboard s;
     pending := pending s; next_id := next_id s |}.

Definition set_wmContent (m : jsstring) (s : page) : page :=
  {| buttons := buttons s; classList := classList s; wmTitle := wmTitle s;
     wmContent := m; copy_button := copy_button s;
     lastContent := lastContent s; clipboard := clipboard s;
     pending := pending s; next_id := next_id s |}.

Definition set_copy_button (t : jsstring) (s : page) : page :=
  {| buttons := buttons s; classList := classList s; wmTitle := wmTitle s;
     wmContent := wmContent s; copy_button := t;
     lastContent := lastContent s; clipboard := clipboard s;
     pending := pending s; next_id := next_id s |}.

Definition set_lastContent (v : json) (s : page) : page :=
  {| buttons := buttons s; classList := classList s; wmTitle := wmTitle s;
     wmContent := wmContent s; copy_button := copy_button s;
     lastContent := v; clipboard := clipboard s;
     pending := pending s; next_id := next_id s |}.

Definition set_clipboard (t : jsstring) (s : page) : page :=
  {| buttons := buttons s; classList := classList s; wmTitle := wmTitle s;
     wmContent := wmContent s; copy_button := copy_button s;
     lastContent := lastContent s; clipboard := t;
     pending := pending s; next_id := next_id s |}.

Definition set_pending (p : gmap nat task) (n : nat) (s : page) : page :=
  {| buttons := buttons s; classList := classList s; wmTitle := wmTitle s;
     wmContent := wmContent s; copy_button := copy_button s;
     lastContent := lastContent s; clipboard := clipboard s;
     pending := p; next_id := n |}.

(** [btn.disabled=d;btn.textContent=t]. *)
Definition label_button (btn : nat) (d : bool) (t : jsstring) (s : page) : page :=
  set_buttons (<[btn := set_textContent t (set_disabled d (buttons s btn))]> (buttons s)) s.

(** The browser takes on a task and the script keeps running. *)
Definition spawn (t : task) (s : page) : page :=
  set_pending (<[next_id s := t]> (pending s)) (S (next_id s)) s.

(** The browser is done with task [id]. *)
Definition retire (id : nat) (s : page) : page :=
  set_pending (delete id (pending s)) (next_id s) s.

(** [classList.add(t)] and [classList.remove(t)] on a token list. *)
Definition add_token (t : jsstring) (l : list jsstring) : list jsstring :=
  if bool_decide (t ∈ l) then l else l ++ [t].

Definition remove_token (t : jsstring) (l : list jsstring) : list jsstring :=
  filter (fun x => x ≠ t) l.

(** ** The script *)

Section Script.
Context {template : Template} {engine : Engine}.

(** [function closeWriter()]. *)
Definition closeWriter (s : page) : page :=
  set_classList (remove_token (js "active") (classList s)) s.

(** [function copyContent()], up to the call of [writeText]; the argument is
    converted to a string, and a conversion that throws rejects the promise,
    which the script leaves unhandled. *)
Definition copyContent (s : page) : page :=
  match ToString (lastContent s) with
  | Return text => spawn (clipboard_task text) s
  | Throw _ => s
  end.

(** The function passed to [then]: it runs once the text is written. *)
Definition copyContent_then (s : page) : page :=
  let s := set_copy_button (0x2705 :: js " Copied!") s in
  spawn (timer_task 2000 restore_copy_label) s.

(** The function passed to [setTimeout]. *)
Definition run_callback (cb : callback) (s : page) : page :=
  match cb with
  | restore_copy_label => set_copy_button ([0xd83d; 0xdccb] ++ js " Copy") s
  end.

(** [function _openModal(title,loadingMsg)]; the handles it returns are those
    of the three overlay parts of the page. *)
Definition _openModal (title loadingMsg : jsstring) (s : page) : page :=
  let s := set_wmTitle title s in
  let s := set_wmContent
             (html "<div class='wm-loading'><div class='spinner'></div><div>"
                ++ loadingMsg ++ js "</div></div>") s in
  set_classList (add_token (js "active") (classList s)) s.

(** [_callServer(payload)], the request: what is passed to [fetch]. *)
Definition _callServer_request (payload : list (jsstring * option jsstring)) : request :=
  {| url := js "/api/write/" ++ SLUG;
     method := js "POST";
     headers := [(js "Content-Type", js "application/json")];
     body := JSON_stringify payload |}.

(** How the browser settles the two promises [_callServer] awaits: [fetch]
    rejects, or [r.json()] rejects, or [r.json()] resolves to a value.  The
    script touches nothing of the page between the two, so they settle in
    one event. *)
Inductive outcome :=
| fetch_rejected (e : js_error)
| json_rejected (e : js_error)
| parsed (d : json).

(** [_callServer(payload)], the rest: what the awaited call returns or
    throws. *)
Definition _callServer_response (o : outcome) : completion json :=
  match o with
  | fetch_rejected e => Throw e
  | json_rejected e => Throw e
  | parsed d =>
      let! error := Get d (js "error") in
      match truthy error with
      | Some v => let! e := new_Error v in Throw e
      | None =>
          let! content := Get d (js "content") in
          Return (default (JStr (js "No content generated.")) (truthy content))
      end
  end.

(** The [try] block after the [await] and its [catch]; shared by the three
    handlers, which spell it out in the same words.  The [catch] treats what
    [_callServer] throws and what [text.replace] throws alike; by then the
    latter has already been stored in [lastContent]. *)
Definition try_render (r : completion json) (s : page) : page :=
  match r with
  | Return text =>
      let s := set_lastContent text s in
      match replace_call text with
      | Return t =>
          set_wmContent (html "<div class='wm-content'>" ++ t ++ js "</div>") s
      | Throw e =>
          set_wmContent
            (html "<div style='color:#f87171'>Error: " ++ message e ++ js "</div>") s
      end
  | Throw e =>
      set_wmContent
        (html "<div style='color:#f87171'>Error: " ++ message e ++ js "</div>") s
  end.

(** [async function writeIt(btn)], up to the [await]. *)
Definition writeIt (btn : nat) (s : page) : page :=
  let type := dataset (buttons s btn) !! "type"%string in
  let topic := dataset (buttons s btn) !! "topic"%string in
  let views := or_else (dataset (buttons s btn) !! "views"%string) (js "") in
  let s := label_button btn true (0x23f3 :: js " WRITING...") s in
  let s := _openModal (concat_value ([0x270d; 0xfe0f] ++ js " ") topic)
             (js "Writing in " ++ CH ++ js "'s voice...") s in
  spawn (fetch_task
           {| call_action := write; call_btn := btn;
              call_request :=
                _callServer_request
                  [(js "topic", topic); (js "type", Some (js "write"));
                   (js "card_type", type); (js "views", Some views)] |}) s.

(** [writeIt], from the [await] on. *)
Definition writeIt_resume (btn : nat) (o : outcome) (s : page) : page :=
  let s := try_render (_callServer_response o) s in
  label_button btn false ([0x270d; 0xfe0f] ++ js " WRITE IT") s.

(** [async function startIt(btn)], up to the [await]. *)
Definition startIt (btn : nat) (s : page) : page :=
  let type := dataset (buttons s btn) !! "type"%string in
  let topic := dataset (buttons s btn) !! "topic"%string in
  let views := or_else (dataset (buttons s btn) !! "views"%string) (js "") in
  let s := label_button btn true (0x23f3 :: js " THINKING...") s in
  let s := _openModal
             (concat_value ([0xd83d; 0xde80] ++ js " Getting You Started: ") topic)
             (js "Building your starting framework...") s in
  spawn (fetch_task
           {| call_action := start; call_btn := btn;
              call_request :=
                _callServer_request
                  [(js "topic", topic); (js "type", Some (js "start"));
                   (js "card_type", type); (js "views", Some views)] |}) s.

(** [startIt], from the [await] on. *)
Definition startIt_resume (btn : nat) (o : outcome) (s : page) : page :=
  let s := try_render (_callServer_response o) s in
  label_button btn false ([0xd83d; 0xde80] ++ js " START IT") s.

(** [async function explainMore(btn)], up to the [await]. *)
Definition explainMore (btn : nat) (s : page) : page :=
  let topic := dataset (buttons s btn) !! "topic"%string in
  let bigbet := or_else (dataset (buttons s btn) !! "bigbet"%string) BIGBET in
  let label := or_else (dataset (buttons s btn) !! "label"%string) (js "") in
  let s := label_button btn true (0x23f3 :: js " ANALYZING...") s in
  let s := _openModal ([0xd83d; 0xdd0d] ++ js " Deep Dive: " ++ label)
             (js "Building deep explanation...") s in
  spawn (fetch_task
           {| call_action := explain; call_btn := btn;
              call_request :=
                _callServer_request
                  [(js "topic", topic); (js "type", Some (js "explain"));
                   (js "big_bet", Some bigbet); (js "label", Some label)] |}) s.

(** [explainMore], from the [await] on. *)
Definition explainMore_resume (btn : nat) (o : outcome) (s : page) : page :=
  let s := try_render (_callServer_response o) s in
  label_button btn false ([0xd83d; 0xdd0d] ++ js " Explain More") s.

(** ** The event loop *)

(** What can happen to the page: a click on a triggering button, on the close
    button or on the copy button, and the browser settling a request, a
    clipboard write or a timer. *)
Inductive event :=
| click (a : action) (btn : nat)
| click_close
| click_copy
| fetch_settles (id : nat) (o : outcome)
| clipboard_settles (id : nat) (written : bool)
| timer_fires (id : nat).

Definition invoke (a : action) (btn : nat) (s : page) : page :=
  match a with
  | write => writeIt btn s
  | start => startIt btn s
  | explain => explainMore btn s
  end.

Definition resume (c : call) (o : outcome) (s : page) : page :=
  match call_action c with
  | write => writeIt_resume (call_btn c) o s
  | start => startIt_resume (call_btn c) o s
  | explain => explainMore_resume (call_btn c) o s
  end.

Definition step (s : page) (ev : event) : page :=
  match ev with
  | click a btn => invoke a btn s
  | click_close => closeWriter s
  | click_copy => copyContent s
  | fetch_settles id o =>
      match pending s !! id with
      | Some (fetch_task c) => resume c o (retire id s)
      | _ => s
      end
  | clipboard_settles id written =>
      match pending s !! id with
      | Some (clipboard_task text) =>
          if written then copyContent_then (set_clipboard text (retire id s))
          else retire id s
      | _ => s
      end
  | timer_fires id =>
      match pending s !! id with
      | Some (timer_task _ cb) => run_callback cb (retire id s)
      | _ => s
      end
  end.

Definition run (s : page) (evs : list event) : page :=
  foldl step s evs.

(** The labels of a triggering button while its request is in flight and
    after it has settled. *)
Definition busy_label (a : action) : jsstring :=
  match a with
  | write => 0x23f3 :: js " WRITING..."
  | start => 0x23f3 :: js " THINKING..."
  | explain => 0x23f3 :: js " ANALYZING..."
  end.

Definition idle_label (a : action) : jsstring :=
  match a with
  | write => [0x270d; 0xfe0f] ++ js " WRITE IT"
  | start => [0xd83d; 0xde80] ++ js " START IT"
  | explain => [0xd83d; 0xdd0d] ++ js " Explain More"
  end.

(** The call that a click has just handed to the browser. *)
Definition issued (a : action) (btn : nat) (s : page) : option call :=
  match pending (invoke a btn s) !! next_id s with
  | Some (fetch_task c) => Some c
  | _ => None
  end.

(** The body of the request that a click has just sent. *)
Definition sent_body (a : action) (btn : nat) (s : page) : option jsstring :=
  match issued a btn s with
  | Some c => Some (body (call_request c))
  | None => None
  end.

(** The event is the browser settling task [id]. *)
Definition settles (id : nat) (ev : event) : bool :=
  match ev with
  | fetch_settles m _ => bool_decide (m = id)
  | clipboard_settles m _ => bool_decide (m = id)
  | timer_fires m => bool_decide (m = id)
  | _ => false
  end.

(** The three ways a request fails, each with the text of its failure: the
    network request is rejected, the body does not parse, or the parsed
    response carries a non-empty error string. *)
Inductive failure : outcome -> jsstring -> Prop :=
| network_failure e : failure (fetch_rejected e) (message e)
| malformed_response e : failure (json_rejected e) (message e)
| application_error d E :
    Get d (js "error") = Return (Some (JStr E)) -> E <> [] ->
    failure (parsed d) E.

(** The same three ways, with the third told by the shape of the response
    alone: the parsed response is an object in which the last member named
    [error] is a non-empty string. *)
Inductive fails_with : outcome -> jsstring -> Prop :=
| fails_in_network e : fails_with (fetch_rejected e) (message e)
| fails_in_parsing e : fails_with (json_rejected e) (message e)
| fails_in_application before after E :
    Forall (fun p => p.1 <> js "error") after -> E <> [] ->
    fails_with (parsed (JObj (before ++ (js "error", JStr E) :: after))) E.

End Script.

(** ** A page to run the script on *)

Module Sample.

Definition v8 : Engine :=
  {| null_read_message := js "Cannot read properties of null (reading 'error')";
     not_function_message := js "text.replace is not a function";
     not_primitive_message := js "Cannot convert object to primitive value" |}.

Definition rendered : Template :=
  {| SLUG := js "acme"; CH := js "Acme"; BIGBET := js "Own the niche" |}.

(** Button 0 is a write button with a topic and a card type, button 1 an
    explain button without a big-bet attribute, button 2 a write button
    without a card type; every other handle is a bare button. *)
Definition home : page :=
  {| buttons := fun btn =>
       match btn with
       | 0%nat => {| disabled := false;
                     textContent := [0x270d; 0xfe0f] ++ js " WRITE IT";
                     dataset := {[ "topic"%string := js "Launch Plan";
                                   "type"%string := js "idea" ]} |}
       | 1%nat => {| disabled := false;
                     textContent := [0xd83d; 0xdd0d] ++ js " Explain More";
                     dataset := {[ "topic"%string := js "Pricing";
                                   "label"%string := js "Why it works" ]} |}
       | 2%nat => {| disabled := false;
                     textContent := [0x270d; 0xfe0f] ++ js " WRITE IT";
                     dataset := {[ "topic"%string := js "Launch Plan" ]} |}
       | _ => {| disabled := false; textContent := []; dataset := ∅ |}
       end;
     classList := [js "wm-overlay"];
     wmTitle := [];
     wmContent := [];
     copy_button := [0xd83d; 0xdccb] ++ js " Copy";
     lastContent := JStr [];
     clipboard := [];
     pending := ∅;
     next_id := 0 |}.

(** The same page with markup that words its labels without the pictographs:
    the write buttons read [Write it] and the copy button reads [Copy]. *)
Definition plain : page :=
  set_copy_button (js "Copy")
    (set_buttons (fun btn => set_textContent (js "Write it") (buttons home btn)) home).

Definition play : page -> list event -> page :=
  run (template := rendered) (engine := v8).

End Sample.

(** * Properties *)

(** ** The replacement of newlines *)

Lemma replace_newlines_app (s t : jsstring) :
  replace_newlines (s ++ t) = replace_newlines s ++ replace_newlines t.
Proof.
  induction s as [|c s IH]; simpl; [done|].
  destruct (c =? 10); simpl; by rewrite IH.
Qed.

Lemma replace_newlines_no_newline (s : jsstring) : 10 ∉ replace_newlines s.
Proof.
  induction s as [|c s IH]; simpl.
  - by intros ?%elem_of_nil.
  - destruct (c =? 10) eqn:Hc.
    + rewrite !not_elem_of_cons. repeat split; try done.
    + rewrite not_elem_of_cons. split; [|done].
      intros <-. by rewrite N.eqb_refl in Hc.
Qed.

(** The replacement changes nothing but newlines. *)
Lemma replace_newlines_id (s : jsstring) :
  10 ∉ s -> replace_newlines s = s.
Proof.
  induction s as [|c s IH]; simpl; [done|].
  rewrite not_elem_of_cons. intros [Hc Hs].
  destruct (N.eqb_spec c 10) as [->|_]; [done|].
  by rewrite IH.
Qed.

Lemma split_newlines_cons (s : jsstring) :
  exists piece pieces, split_newlines s = piece :: pieces.
Proof.
  destruct s as [|c s]; simpl; [by eexists _, _|].
  destruct (c =? 10); [by eexists _, _|].
  destruct (split_newlines s); by eexists _, _.
Qed.

(** X1. The replacement is a split at the newlines followed by a join with
    the line-break marker: [text.replace(/\n/g,"<br>")] and
    [text.split("\n").join("<br>")] give the same text. *)
Lemma replace_newlines_join_split (s : jsstring) :
  replace_newlines s = join (js "<br>") (split_newlines s).
Proof.
  induction s as [|c s IH]; simpl; [done|].
  destruct (split_newlines_cons s) as (piece & pieces & Hs).
  rewrite IH, Hs. destruct (c =? 10); [done|].
  by destruct pieces.
Qed.

(** ** Settling a request *)

Section Settlement.
Context {template : Template} {engine : Engine}.

Lemma eqb_nil_false (s : jsstring) : s <> [] -> eqb s [] = false.
Proof. intros Hs. unfold eqb. by apply bool_decide_eq_false. Qed.

Lemma truthy_false (v : option json) : ToBoolean v = false -> truthy v = None.
Proof. unfold truthy. by intros ->. Qed.

Lemma truthy_true (v : option json) : ToBoolean v = true -> truthy v = v.
Proof. unfold truthy. by intros ->. Qed.

(** A settlement runs the continuation of the call it settles, on the page
    without that call. *)
Lemma step_fetch_settles (s : page) (id : nat) (c : call) (o : outcome) :
  pending s !! id = Some (fetch_task c) ->
  step s (fetch_settles id o) = resume c o (retire id s).
Proof. intros Hc. simpl. by rewrite Hc. Qed.

(** The three continuations are one, up to the label they restore. *)
Lemma resume_eq (c : call) (o : outcome) (s : page) :
  resume c o s
  = label_button (call_btn c) false (idle_label (call_action c))
      (try_render (_callServer_response o) s).
Proof. unfold resume. by destruct (call_action c). Qed.

Lemma wmContent_resume (c : call) (o : outcome) (s : page) :
  wmContent (resume c o s) = wmContent (try_render (_callServer_response o) s).
Proof. by rewrite resume_eq. Qed.

Lemma lastContent_resume (c : call) (o : outcome) (s : page) :
  lastContent (resume c o s) = lastContent (try_render (_callServer_response o) s).
Proof. by rewrite resume_eq. Qed.

Lemma pending_resume (c : call) (o : outcome) (s : page) :
  pending (resume c o s) = pending s /\ next_id (resume c o s) = next_id s.
Proof.
  rewrite resume_eq. unfold try_render.
  destruct (_callServer_response o) as [text|e]; [|done].
  by destruct (replace_call text).
Qed.

(** What [_callServer] returns for a response without a truthy error. *)
Lemma response_content (d : json) (err content : option json) :
  Get d (js "error") = Return err -> ToBoolean err = false ->
  Get d (js "content") = Return content ->
  _callServer_response (parsed d)
  = Return (default (JStr (js "No content generated.")) (truthy content)).
Proof.
  intros Herr Hfalsy Hcontent. simpl.
  by rewrite Herr; simpl; rewrite (truthy_false _ Hfalsy), Hcontent.
Qed.

(** What [_callServer] throws for a response with a truthy error. *)
Lemma response_error (d : json) (v : json) :
  Get d (js "error") = Return (Some v) -> ToBoolean (Some v) = true ->
  exists e, _callServer_response (parsed d) = Throw e /\
            (forall E, v = JStr E -> e = {| err_class := Error; message := E |}).
Proof.
  intros Herr Htruthy. simpl.
  rewrite Herr; simpl; rewrite (truthy_true _ Htruthy).
  unfold new_Error. destruct (ToString v) as [m|e] eqn:Hm; simpl.
  - eexists; split; [done|]. intros E ->. simpl in Hm. congruence.
  - eexists; split; [done|]. intros E ->. done.
Qed.

Lemma failure_throws (o : outcome) (m : jsstring) :
  failure o m -> exists e, _callServer_response o = Throw e /\ message e = m.
Proof.
  destruct 1 as [e|e|d E Herr HE].
  - by exists e.
  - by exists e.
  - destruct (response_error d (JStr E) Herr) as (e & He & Hmsg).
    { simpl. by rewrite eqb_nil_false. }
    exists e. split; [done|]. by rewrite (Hmsg E eq_refl).
Qed.

Lemma try_render_string (X : jsstring) (s : page) :
  try_render (Return (JStr X)) s
  = set_wmContent (html "<div class='wm-content'>" ++ replace_newlines X ++ js "</div>")
      (set_lastContent (JStr X) s).
Proof. reflexivity. Qed.

Lemma try_render_throw (e : js_error) (s : page) :
  try_render (Throw e) s
  = set_wmContent
      (html "<div style='color:#f87171'>Error: " ++ message e ++ js "</div>") s.
Proof. reflexivity. Qed.

Lemma wmContent_set (m : jsstring) (s : page) : wmContent (set_wmContent m s) = m.
Proof. reflexivity. Qed.

Lemma lastContent_set_wmContent (m : jsstring) (s : page) :
  lastContent (set_wmContent m s) = lastContent s.
Proof. reflexivity. Qed.

Lemma literal_no_newline (s : jsstring) : forallb (fun c => negb (c =? 10)) s = true -> 10 ∉ s.
Proof.
  induction s as [|c s IH]; simpl; [by intros _ ?%elem_of_nil|].
  intros [Hc Hs]%andb_prop. rewrite not_elem_of_cons. split; [|by apply IH].
  intros <-. done.
Qed.

(** C1. For each of the three handlers: when the response parses to a value
    whose [content] is a non-empty string [X] and whose [error] is missing or
    falsy, the body of the modal becomes [X] with every newline replaced by
    [<br>], inside the content container, so that no newline is left in it;
    and [lastContent] becomes [X] itself, newlines and all. *)
Theorem content_rendered_with_line_breaks
    (s : page) (id : nat) (c : call) (d : json) (err : option json) (X : jsstring) :
  pending s !! id = Some (fetch_task c) ->
  Get d (js "content") = Return (Some (JStr X)) ->
  X <> [] ->
  Get d (js "error") = Return err ->
  ToBoolean err = false ->
  let s' := step s (fetch_settles id (parsed d)) in
  wmContent s' = html "<div class='wm-content'>" ++ replace_newlines X ++ js "</div>"
  /\ (10 ∉ wmContent s')
  /\ lastContent s' = JStr X.
Proof.
  intros Hc Hcontent HX Herr Hfalsy s'. subst s'.
  rewrite (step_fetch_settles _ _ _ _ Hc), wmContent_resume, lastContent_resume.
  rewrite (response_content _ _ _ Herr Hfalsy Hcontent).
  rewrite truthy_true by (simpl; by rewrite eqb_nil_false).
  cbn [from_option Datatypes.id]. rewrite try_render_string, wmContent_set.
  split; [reflexivity|]. split; [|reflexivity].
  rewrite !elem_of_app. intros [Hin|[Hin|Hin]].
  - revert Hin. by apply literal_no_newline.
  - by apply replace_newlines_no_newline in Hin.
  - revert Hin. by apply literal_no_newline.
Qed.

(** C2. For each of the three handlers: when the parsed response carries a
    non-empty error string [E], the body of the modal becomes the text
    [Error: E] in the error colour, and [lastContent] keeps the value it
    had. *)
Theorem error_string_rendered
    (s : page) (id : nat) (c : call) (d : json) (E : jsstring) :
  pending s !! id = Some (fetch_task c) ->
  Get d (js "error") = Return (Some (JStr E)) ->
  E <> [] ->
  let s' := step s (fetch_settles id (parsed d)) in
  wmContent s' = html "<div style='color:#f87171'>Error: " ++ E ++ js "</div>"
  /\ lastContent s' = lastContent s.
Proof.
  intros Hc Herr HE s'. subst s'.
  rewrite (step_fetch_settles _ _ _ _ Hc), wmContent_resume, lastContent_resume.
  destruct (failure_throws (parsed d) E) as (e & -> & <-).
  { by constructor. }
  by rewrite try_render_throw.
Qed.


(** C6. For each of the three handlers: when the parsed response has neither
    a [content] nor an [error] field, the body of the modal is the text
    [No content generated.] in the content container. *)
Theorem fallback_when_fields_missing
    (s : page) (id : nat) (c : call) (d : json) :
  pending s !! id = Some (fetch_task c) ->
  Get d (js "content") = Return None ->
  Get d (js "error") = Return None ->
  wmContent (step s (fetch_settles id (parsed d)))
  = html "<div class='wm-content'>" ++ js "No content generated." ++ js "</div>".
Proof.
  intros Hc Hcontent Herr.
  rewrite (step_fetch_settles _ _ _ _ Hc), wmContent_resume.
  by rewrite (response_content _ _ _ Herr eq_refl Hcontent).
Qed.

Lemma member_absent (k : jsstring) (members : list (jsstring * json)) :
  Forall (fun p => p.1 <> k) members -> member k members = None.
Proof.
  induction 1 as [|[k' v] rest Hk _ IH]; [done|].
  cbn [member]. rewrite IH. unfold eqb. by rewrite bool_decide_eq_false_2.
Qed.

(** The value of a field is that of the last member of its name. *)
Lemma member_last (k : jsstring) (v : json) (before after : list (jsstring * json)) :
  Forall (fun p => p.1 <> k) after ->
  member k (before ++ (k, v) :: after) = Some v.
Proof.
  intros Hafter. induction before as [|[k' v'] before IH].
  - cbn [app member]. rewrite (member_absent _ _ Hafter).
    unfold eqb. by rewrite bool_decide_eq_true_2.
  - cbn [app member]. fold (before ++ (k, v) :: after). by rewrite IH.
Qed.

Lemma fails_with_throws (o : outcome) (m : jsstring) :
  fails_with o m -> exists e, _callServer_response o = Throw e /\ message e = m.
Proof.
  destruct 1 as [e|e|before after E Hafter HE].
  - by exists e.
  - by exists e.
  - destruct (response_error (JObj (before ++ (js "error", JStr E) :: after))
                (JStr E)) as (e & He & Hmsg).
    { cbn [Get]. by rewrite (member_last _ _ _ _ Hafter). }
    { simpl. by rewrite eqb_nil_false. }
    exists e. split; [done|]. by rewrite (Hmsg E eq_refl).
Qed.

(** C7. The three kinds of failure, a rejected network request, a body that
    does not parse and a parsed response whose [error] member is a non-empty
    string, end in the same place: the awaited call throws, and the [catch]
    writes the text of the failure into the body of the modal in the error
    colour, whatever the kind; [lastContent] keeps its value; the settled
    call leaves the tasks in flight and no new task joins them, so nothing is
    tried again. *)
Theorem failures_share_one_path
    (s : page) (id : nat) (c : call) (o : outcome) (m : jsstring) :
  pending s !! id = Some (fetch_task c) ->
  fails_with o m ->
  let s' := step s (fetch_settles id o) in
  wmContent s' = html "<div style='color:#f87171'>Error: " ++ m ++ js "</div>"
  /\ (exists e, _callServer_response o = Throw e /\ message e = m)
  /\ lastContent s' = lastContent s
  /\ pending s' = delete id (pending s)
  /\ next_id s' = next_id s.
Proof.
  intros Hc Hfail s'. subst s'.
  rewrite (step_fetch_settles _ _ _ _ Hc), wmContent_resume, lastContent_resume.
  destruct (pending_resume c o (retire id s)) as [-> ->].
  destruct (fails_with_throws o m Hfail) as (e & He & <-).
  rewrite He, try_render_throw. repeat split; try done. by exists e.
Qed.

(** C10. When the [content] field of the parsed response is the empty string
    and the [error] field is missing or falsy, the request still counts as a
    success, and it is the text [No content generated.], not the empty
    string, that becomes [lastContent] and the body of the modal. *)
Theorem fallback_when_content_empty
    (s : page) (id : nat) (c : call) (d : json) (err : option json) :
  pending s !! id = Some (fetch_task c) ->
  Get d (js "content") = Return (Some (JStr [])) ->
  Get d (js "error") = Return err ->
  ToBoolean err = false ->
  let s' := step s (fetch_settles id (parsed d)) in
  _callServer_response (parsed d) = Return (JStr (js "No content generated."))
  /\ lastContent s' = JStr (js "No content generated.")
  /\ wmContent s'
     = html "<div class='wm-content'>" ++ js "No content generated." ++ js "</div>".
Proof.
  intros Hc Hcontent Herr Hfalsy s'. subst s'.
  rewrite (step_fetch_settles _ _ _ _ Hc), wmContent_resume, lastContent_resume.
  by rewrite (response_content _ _ _ Herr Hfalsy Hcontent).
Qed.

End Settlement.

(** ** Clicks, and tasks that stay in flight *)

Section Invocation.
Context {template : Template} {engine : Engine}.

Lemma buttons_invoke (a : action) (btn : nat) (s : page) :
  buttons (invoke a btn s)
  = <[btn := set_textContent (busy_label a) (set_disabled true (buttons s btn))]>
      (buttons s).
Proof. by destruct a. Qed.

Lemma pending_invoke (a : action) (btn : nat) (s : page) :
  exists c,
    call_action c = a /\ call_btn c = btn /\
    pending (invoke a btn s) = <[next_id s := fetch_task c]> (pending s) /\
    next_id (invoke a btn s) = S (next_id s).
Proof. destruct a; by eexists {| call_action := _ |}. Qed.

(** A task stays in flight, under its own number, through every event that
    does not settle it, and numbers are never handed out twice. *)
Lemma step_keeps_task (s : page) (ev : event) (id : nat) (t : task) :
  settles id ev = false ->
  pending s !! id = Some t -> (id < next_id s)%nat ->
  pending (step s ev) !! id = Some t /\ (id < next_id (step s ev))%nat.
Proof.
  intros Hev Ht Hid. destruct ev as [a btn| | |m o|m written|m]; simpl in *.
  - destruct (pending_invoke a btn s) as (c & _ & _ & -> & ->).
    rewrite lookup_insert_ne by lia. split; [done|lia].
  - done.
  - unfold copyContent. destruct (ToString (lastContent s)); simpl; [|done].
    rewrite lookup_insert_ne by lia. split; [done|lia].
  - apply bool_decide_eq_false in Hev.
    destruct (pending s !! m) as [[c| |]|]; try done.
    destruct (pending_resume c o (retire m s)) as [-> ->]. simpl.
    by rewrite lookup_delete_ne.
  - apply bool_decide_eq_false in Hev.
    destruct (pending s !! m) as [[|text|]|]; try done.
    destruct written; simpl.
    + rewrite lookup_insert_ne by lia. rewrite lookup_delete_ne by done.
      split; [done|lia].
    + by rewrite lookup_delete_ne.
  - apply bool_decide_eq_false in Hev.
    destruct (pending s !! m) as [[| |delay cb]|]; try done.
    destruct cb; simpl. by rewrite lookup_delete_ne.
Qed.

Lemma run_keeps_task (evs : list event) (s : page) (id : nat) (t : task) :
  Forall (fun ev => settles id ev = false) evs ->
  pending s !! id = Some t -> (id < next_id s)%nat ->
  pending (run s evs) !! id = Some t /\ (id < next_id (run s evs))%nat.
Proof.
  intros Hevs. revert s.
  induction Hevs as [|ev evs Hev _ IH]; intros s Ht Hid; simpl; [done|].
  destruct (step_keeps_task s ev id t Hev Ht Hid) as [Ht' Hid'].
  by apply IH.
Qed.

(** The button of a call when the call settles. *)
Lemma buttons_resume (c : call) (o : outcome) (s : page) :
  disabled (buttons (resume c o s) (call_btn c)) = false /\
  textContent (buttons (resume c o s) (call_btn c)) = idle_label (call_action c).
Proof.
  rewrite resume_eq. unfold label_button. simpl.
  by rewrite fn_lookup_insert.
Qed.

(** C3, as amended. For each of the three handlers and every button: the
    click disables the button and gives it the busy label of the handler at
    once; whatever happens on the page in between, when the request settles,
    with a success or with any failure, the button is enabled again and its
    label is the fixed idle label of the handler ([WRITE IT], [START IT] or
    [Explain More] after its pictograph), which is the label the button had
    before the click if and only if it had that label. *)
Theorem button_busy_until_settled
    (a : action) (btn : nat) (s : page) (evs : list event) (o : outcome) :
  Forall (fun ev => settles (next_id s) ev = false) evs ->
  let clicked := invoke a btn s in
  let settled := step (run clicked evs) (fetch_settles (next_id s) o) in
  disabled (buttons clicked btn) = true
  /\ textContent (buttons clicked btn) = busy_label a
  /\ disabled (buttons settled btn) = false
  /\ textContent (buttons settled btn) = idle_label a
  /\ (textContent (buttons settled btn) = textContent (buttons s btn)
      <-> textContent (buttons s btn) = idle_label a).
Proof.
  intros Hevs clicked settled.
  assert (disabled (buttons settled btn) = false /\
          textContent (buttons settled btn) = idle_label a) as [Hd Ht].
  { subst clicked settled.
    destruct (pending_invoke a btn s) as (c & <- & <- & Hp & Hn).
    destruct (run_keeps_task evs (invoke (call_action c) (call_btn c) s)
                (next_id s) (fetch_task c) Hevs) as [Hc _].
    { rewrite Hp. apply lookup_insert_eq. }
    { rewrite Hn. lia. }
    rewrite (step_fetch_settles _ _ _ _ Hc). apply buttons_resume. }
  subst clicked. rewrite buttons_invoke, fn_lookup_insert, Hd, Ht.
  repeat split; congruence.
Qed.

End Invocation.

(** ** The request *)

Section Request.
Context {template : Template} {engine : Engine}.

Lemma stringify_four (k1 v1 k2 v2 k3 v3 k4 v4 : jsstring) :
  JSON_stringify [(k1, Some v1); (k2, Some v2); (k3, Some v3); (k4, Some v4)]
  = js "{" ++ QuoteJSONString k1 ++ js ":" ++ QuoteJSONString v1 ++ js "," ++
    QuoteJSONString k2 ++ js ":" ++ QuoteJSONString v2 ++ js "," ++
    QuoteJSONString k3 ++ js ":" ++ QuoteJSONString v3 ++ js "," ++
    QuoteJSONString k4 ++ js ":" ++ QuoteJSONString v4 ++ js "}".
Proof.
  unfold JSON_stringify. cbn [omap list_omap join fst snd].
  by rewrite <- !app_assoc.
Qed.

(** [v || ""] is [v], or the empty string when [v] is missing. *)
Lemma or_else_empty (v : option jsstring) : or_else v (js "") = default [] v.
Proof. by destruct v as [[|c rest]|]. Qed.

Lemma sent_body_write (btn : nat) (s : page) :
  sent_body write btn s
  = Some (JSON_stringify
            [(js "topic", dataset (buttons s btn) !! "topic"%string);
             (js "type", Some (js "write"));
             (js "card_type", dataset (buttons s btn) !! "type"%string);
             (js "views", Some (default [] (dataset (buttons s btn) !! "views"%string)))]).
Proof.
  unfold sent_body, issued. simpl.
  by rewrite lookup_insert_eq, or_else_empty.
Qed.

Lemma sent_body_start (btn : nat) (s : page) :
  sent_body start btn s
  = Some (JSON_stringify
            [(js "topic", dataset (buttons s btn) !! "topic"%string);
             (js "type", Some (js "start"));
             (js "card_type", dataset (buttons s btn) !! "type"%string);
             (js "views", Some (default [] (dataset (buttons s btn) !! "views"%string)))]).
Proof.
  unfold sent_body, issued. simpl.
  by rewrite lookup_insert_eq, or_else_empty.
Qed.

Lemma sent_body_explain (btn : nat) (s : page) :
  sent_body explain btn s
  = Some (JSON_stringify
            [(js "topic", dataset (buttons s btn) !! "topic"%string);
             (js "type", Some (js "explain"));
             (js "big_bet", Some (or_else (dataset (buttons s btn) !! "bigbet"%string) BIGBET));
             (js "label", Some (default [] (dataset (buttons s btn) !! "label"%string)))]).
Proof.
  unfold sent_body, issued. simpl.
  by rewrite lookup_insert_eq, or_else_empty.
Qed.

(** C5, as amended. Every click sends a body with exactly these fields, in
    this order.  For write and start: [topic], if the button carries a
    topic; [type], the name of the handler; [card_type], if the button
    carries a card type; and [views], the empty string if the button has
    none.  For explain: [topic], if the button carries a topic; [type];
    [big_bet], the attribute of the button if it has a non-empty one and the
    [BIGBET] of the page otherwise; and [label], the empty string if the
    button has none.  A topic or a card type that the button does not carry
    is not given a default: the field is left out of the body. *)
Theorem request_body_fields (btn : nat) (s : page) :
  let data := dataset (buttons s btn) in
  let topic := match data !! "topic"%string with
               | Some T => html "'topic':" ++ QuoteJSONString T ++ js ","
               | None => []
               end in
  let card_type := match data !! "type"%string with
                   | Some C => html "'card_type':" ++ QuoteJSONString C ++ js ","
                   | None => []
                   end in
  let views := default [] (data !! "views"%string) in
  let big_bet := match data !! "bigbet"%string with
                 | Some (c :: B) => c :: B
                 | _ => BIGBET
                 end in
  let label := default [] (data !! "label"%string) in
  sent_body write btn s
  = Some (js "{" ++ topic ++ html "'type':'write'," ++ card_type ++
          html "'views':" ++ QuoteJSONString views ++ js "}")
  /\ sent_body start btn s
     = Some (js "{" ++ topic ++ html "'type':'start'," ++ card_type ++
             html "'views':" ++ QuoteJSONString views ++ js "}")
  /\ sent_body explain btn s
     = Some (js "{" ++ topic ++ html "'type':'explain','big_bet':" ++
             QuoteJSONString big_bet ++ html ",'label':" ++
             QuoteJSONString label ++ js "}").
Proof.
  intros data topic card_type views big_bet label.
  subst data topic card_type views big_bet label.
  rewrite sent_body_write, sent_body_start, sent_body_explain.
  unfold or_else.
  destruct (dataset (buttons s btn) !! "topic"%string) as [T|];
    destruct (dataset (buttons s btn) !! "type"%string) as [C|];
    destruct (dataset (buttons s btn) !! "bigbet"%string) as [[|b B]|];
    unfold JSON_stringify; cbn [omap list_omap join fst snd];
    rewrite <- ?app_assoc; repeat split; reflexivity.
Qed.

End Request.

(** ** The copy button and the close button *)

Section Overlay.
Context {template : Template} {engine : Engine}.

Lemma step_clipboard_written (s : page) (id : nat) (text : jsstring) :
  pending s !! id = Some (clipboard_task text) ->
  step s (clipboard_settles id true)
  = copyContent_then (set_clipboard text (retire id s)).
Proof. intros Ht. simpl. by rewrite Ht. Qed.

Lemma step_timer_fires (s : page) (id : nat) (delay : N) (cb : callback) :
  pending s !! id = Some (timer_task delay cb) ->
  step s (timer_fires id) = run_callback cb (retire id s).
Proof. intros Ht. simpl. by rewrite Ht. Qed.

(** C8, as amended. When [lastContent] holds a string [X], as it does after
    a successful request, [copyContent] asks the browser to write exactly [X]
    to the clipboard.  Once the browser has written it, the clipboard holds
    [X], the copy button reads [Copied!] after a check mark, and a timer of
    2000 milliseconds is set; when that timer fires, the copy button reads
    the fixed label [Copy] after a clipboard pictograph, which is the label
    it had before if and only if it had that label.  Other events may happen
    on the page in between. *)
Theorem copy_then_fixed_label
    (s : page) (X : jsstring) (before after : list event) :
  lastContent s = JStr X ->
  let copied := step s click_copy in
  let waiting := run copied before in
  let written := step waiting (clipboard_settles (next_id s) true) in
  let reverted := step (run written after) (timer_fires (next_id waiting)) in
  Forall (fun ev => settles (next_id s) ev = false) before ->
  Forall (fun ev => settles (next_id waiting) ev = false) after ->
  pending copied !! next_id s = Some (clipboard_task X)
  /\ clipboard written = X
  /\ copy_button written = 0x2705 :: js " Copied!"
  /\ pending written !! next_id waiting = Some (timer_task 2000 restore_copy_label)
  /\ copy_button reverted = [0xd83d; 0xdccb] ++ js " Copy"
  /\ (copy_button reverted = copy_button s
      <-> copy_button s = [0xd83d; 0xdccb] ++ js " Copy").
Proof.
  intros HX copied waiting written reverted Hbefore Hafter.
  assert (copied = spawn (clipboard_task X) s) as Hcopied.
  { subst copied. simpl. unfold copyContent. by rewrite HX. }
  assert (pending copied !! next_id s = Some (clipboard_task X)) as Hwrite.
  { rewrite Hcopied. apply lookup_insert_eq. }
  destruct (run_keeps_task before copied (next_id s) (clipboard_task X) Hbefore Hwrite)
    as [Hwaiting _].
  { rewrite Hcopied. simpl. lia. }
  fold waiting in Hwaiting.
  assert (written = copyContent_then (set_clipboard X (retire (next_id s) waiting)))
    as Hwritten.
  { subst written. by apply step_clipboard_written. }
  assert (pending written !! next_id waiting
          = Some (timer_task 2000 restore_copy_label)) as Htimer.
  { rewrite Hwritten. apply lookup_insert_eq. }
  destruct (run_keeps_task after written (next_id waiting) _ Hafter Htimer)
    as [Hfire _].
  { rewrite Hwritten. simpl. lia. }
  assert (copy_button reverted = [0xd83d; 0xdccb] ++ js " Copy") as Hreverted.
  { subst reverted. by rewrite (step_timer_fires _ _ _ _ Hfire). }
  repeat split; try done.
  - by rewrite Hwritten.
  - by rewrite Hwritten.
  - by rewrite Hreverted.
  - by rewrite Hreverted.
Qed.

(** C9. [closeWriter] takes the [active] class off the overlay and does
    nothing else: the other classes of the overlay, the title and the body of
    the modal, [lastContent], the buttons, the clipboard and the tasks in
    flight, the pending requests among them, are what they were. *)
Theorem closeWriter_only_hides (s : page) :
  let s' := step s click_close in
  (js "active" ∉ classList s')
  /\ (forall t, t <> js "active" -> t ∈ classList s' <-> t ∈ classList s)
  /\ wmTitle s' = wmTitle s
  /\ wmContent s' = wmContent s
  /\ lastContent s' = lastContent s
  /\ pending s' = pending s
  /\ next_id s' = next_id s
  /\ buttons s' = buttons s
  /\ copy_button s' = copy_button s
  /\ clipboard s' = clipboard s.
Proof.
  intros s'. subst s'. simpl. unfold remove_token.
  split; [|split]; [| |done].
  - rewrite list_elem_of_filter. by intros [? _].
  - intros t Ht. rewrite list_elem_of_filter. tauto.
Qed.

End Overlay.

(** ** Runs on the sample page *)

Section Runs.
#[local] Existing Instance Sample.rendered.
#[local] Existing Instance Sample.v8.

Import Sample.

(** Button 0 is clicked and the server answers with two lines. *)
Lemma content_rendered_with_line_breaks_run :
  let d := JObj [(js "content", JStr (js "Step 1..." ++ [10] ++ js "Step 2..."))] in
  let s' := step (play home [click write 0]) (fetch_settles 0 (parsed d)) in
  wmContent s' = html "<div class='wm-content'>Step 1...<br>Step 2...</div>"
  /\ (10 ∉ wmContent s')
  /\ lastContent s' = JStr (js "Step 1..." ++ [10] ++ js "Step 2...").
Proof.
  intros d.
  refine (content_rendered_with_line_breaks (play home [click write 0]) 0 _ d None
            (js "Step 1..." ++ [10] ++ js "Step 2...") _ _ _ _ _).
  - vm_compute. reflexivity.
  - reflexivity.
  - discriminate.
  - reflexivity.
  - reflexivity.
Defined.

(** Button 1 is clicked and the server answers with an error. *)
Lemma error_string_rendered_run :
  let d := JObj [(js "error", JStr (js "rate limited"))] in
  let s := play home [click explain 1] in
  let s' := step s (fetch_settles 0 (parsed d)) in
  wmContent s' = html "<div style='color:#f87171'>Error: rate limited</div>"
  /\ lastContent s' = lastContent s.
Proof.
  intros d s.
  refine (error_string_rendered s 0 _ d (js "rate limited") _ _ _).
  - vm_compute. reflexivity.
  - reflexivity.
  - discriminate.
Defined.

(** Button 0 is clicked, other things happen, and the request fails in the
    network. *)
Lemma button_busy_until_settled_run :
  let o := fetch_rejected {| err_class := TypeError; message := js "Failed to fetch" |} in
  let clicked := invoke write 0 home in
  let settled :=
    step (run clicked [click explain 1; click_close; click_copy]) (fetch_settles 0 o) in
  disabled (buttons clicked 0) = true
  /\ textContent (buttons clicked 0) = 0x23f3 :: js " WRITING..."
  /\ disabled (buttons settled 0) = false
  /\ textContent (buttons settled 0) = [0x270d; 0xfe0f] ++ js " WRITE IT"
  /\ (textContent (buttons settled 0) = textContent (buttons home 0)
      <-> textContent (buttons home 0) = [0x270d; 0xfe0f] ++ js " WRITE IT").
Proof.
  intros o.
  refine (button_busy_until_settled write 0 home
            [click explain 1; click_close; click_copy] o _).
  repeat constructor.
Defined.


(** The two requests of the specification: a write on button 0 and an
    explain on button 1, which has no big-bet attribute. *)
Lemma request_body_fields_run :
  sent_body write 0 home
  = Some (html "{'topic':'Launch Plan','type':'write','card_type':'idea','views':''}")
  /\ sent_body explain 1 home
     = Some (html "{'topic':'Pricing','type':'explain','big_bet':'Own the niche','label':'Why it works'}")
  /\ sent_body start 2 home
     = Some (html "{'topic':'Launch Plan','type':'start','views':''}")
  /\ sent_body write 3 home = Some (html "{'type':'write','views':''}").
Proof.
  split; [exact (proj1 (request_body_fields 0 home))|].
  split; [exact (proj2 (proj2 (request_body_fields 1 home)))|].
  split; [exact (proj1 (proj2 (request_body_fields 2 home)))|].
  exact (proj1 (request_body_fields 3 home)).
Defined.

(** The server answers with an empty object. *)
Lemma fallback_when_fields_missing_run :
  wmContent (step (play home [click start 0]) (fetch_settles 0 (parsed (JObj []))))
  = html "<div class='wm-content'>No content generated.</div>".
Proof.
  refine (fallback_when_fields_missing (play home [click start 0]) 0 _ (JObj []) _ _ _).
  - vm_compute. reflexivity.
  - reflexivity.
  - reflexivity.
Defined.

(** The network fails; the server answers with a page of markup instead of
    JSON; the server answers with an error beside a content. *)
Lemma failures_share_one_path_run :
  let s := play home [click write 0] in
  let shown o := wmContent (step s (fetch_settles 0 o)) in
  shown (fetch_rejected {| err_class := TypeError; message := js "Failed to fetch" |})
  = html "<div style='color:#f87171'>Error: Failed to fetch</div>"
  /\ shown (json_rejected {| err_class := SyntaxError;
                            message := js "Unexpected token < in JSON at position 0" |})
     = html "<div style='color:#f87171'>Error: Unexpected token < in JSON at position 0</div>"
  /\ shown (parsed (JObj [(js "content", JStr (js "Draft"));
                          (js "error", JStr (js "rate limited"));
                          (js "status", JStr (js "429"))]))
     = html "<div style='color:#f87171'>Error: rate limited</div>".
Proof.
  intros s shown. split; [|split].
  - refine (proj1 (failures_share_one_path s 0 _ _ _ _ (fails_in_network _))).
    vm_compute. reflexivity.
  - refine (proj1 (failures_share_one_path s 0 _ _ _ _ (fails_in_parsing _))).
    vm_compute. reflexivity.
  - refine (proj1 (failures_share_one_path s 0 _ _ _ _
                     (fails_in_application [(js "content", JStr (js "Draft"))]
                        [(js "status", JStr (js "429"))] (js "rate limited") _ _))).
    + vm_compute. reflexivity.
    + constructor; [|constructor]. intros H. vm_compute in H. discriminate H.
    + discriminate.
Defined.

(** A request succeeds, the copy button is clicked, the overlay is closed
    while the browser writes, and the timer fires. *)
Lemma copy_then_fixed_label_run :
  let s := play home [click write 0;
                      fetch_settles 0 (parsed (JObj [(js "content", JStr (js "Draft"))]))] in
  let copied := step s click_copy in
  let waiting := run copied [click_close] in
  let written := step waiting (clipboard_settles (next_id s) true) in
  let reverted := step (run written []) (timer_fires (next_id waiting)) in
  pending copied !! next_id s = Some (clipboard_task (js "Draft"))
  /\ clipboard written = js "Draft"
  /\ copy_button written = 0x2705 :: js " Copied!"
  /\ pending written !! next_id waiting = Some (timer_task 2000 restore_copy_label)
  /\ copy_button reverted = [0xd83d; 0xdccb] ++ js " Copy"
  /\ (copy_button reverted = copy_button s
      <-> copy_button s = [0xd83d; 0xdccb] ++ js " Copy").
Proof.
  intros s.
  refine (copy_then_fixed_label s (js "Draft") [click_close] [] _ _ _).
  - vm_compute. reflexivity.
  - repeat constructor.
  - constructor.
Defined.

(** The server answers with an empty content. *)
Lemma fallback_when_content_empty_run :
  let d := JObj [(js "content", JStr [])] in
  let s' := step (play home [click explain 1]) (fetch_settles 0 (parsed d)) in
  _callServer_response (parsed d) = Return (JStr (js "No content generated."))
  /\ lastContent s' = JStr (js "No content generated.")
  /\ wmContent s' = html "<div class='wm-content'>No content generated.</div>".
Proof.
  intros d.
  refine (fallback_when_content_empty (play home [click explain 1]) 0 _ d None _ _ _ _).
  - vm_compute. reflexivity.
  - reflexivity.
  - reflexivity.
  - reflexivity.
Defined.

(** The overlay is closed while a request is in flight. *)
Lemma closeWriter_only_hides_run :
  let s := play home [click write 0] in
  let s' := step s click_close in
  (js "active" ∉ classList s')
  /\ (forall t, t <> js "active" -> t ∈ classList s' <-> t ∈ classList s)
  /\ wmTitle s' = wmTitle s
  /\ wmContent s' = wmContent s
  /\ lastContent s' = lastContent s
  /\ pending s' = pending s
  /\ next_id s' = next_id s
  /\ buttons s' = buttons s
  /\ copy_button s' = copy_button s
  /\ clipboard s' = clipboard s.
Proof. exact (closeWriter_only_hides (play home [click write 0])). Defined.

(** The server answers [null]: reading [d.error] throws. *)
Example null_response_run :
  wmContent (play home [click write 0; fetch_settles 0 (parsed JNull)])
  = html "<div style='color:#f87171'>Error: " ++
    js "Cannot read properties of null (reading 'error')" ++ js "</div>".
Proof. vm_compute. reflexivity. Qed.

(** The server answers with a number for content: the number is stored, and
    then it has no [replace] to call. *)
Example number_content_run :
  let n := {| num_truthy := true; num_text := js "42" |} in
  let s := play home [click write 0;
                      fetch_settles 0 (parsed (JObj [(js "content", JNum n)]))] in
  lastContent s = JNum n
  /\ wmContent s
     = html "<div style='color:#f87171'>Error: text.replace is not a function</div>"
  /\ disabled (buttons s 0) = false.
Proof. vm_compute. repeat split. Qed.

(** Two requests overlap: the one that settles last fills the modal. *)
Example last_settled_wins_run :
  let first := parsed (JObj [(js "content", JStr (js "first"))]) in
  let second := parsed (JObj [(js "content", JStr (js "second"))]) in
  let s := play home [click write 0; click explain 1;
                      fetch_settles 1 second; fetch_settles 0 first] in
  wmContent s = html "<div class='wm-content'>first</div>"
  /\ wmTitle s = [0xd83d; 0xdd0d] ++ js " Deep Dive: Why it works"
  /\ lastContent s = JStr (js "first").
Proof. vm_compute. repeat split. Qed.

(** *** Where the script departs from the stated behaviour *)

(** C3, as stated, fails: a write button that reads [Write it] does not get
    that label back when its request settles. *)
Lemma original_label_not_restored :
  let settled :=
    play plain [click write 0;
                fetch_settles 0 (parsed (JObj [(js "content", JStr (js "Draft"))]))] in
  textContent (buttons plain 0) = js "Write it"
  /\ disabled (buttons settled 0) = false
  /\ textContent (buttons settled 0) = [0x270d; 0xfe0f] ++ js " WRITE IT"
  /\ textContent (buttons settled 0) <> textContent (buttons plain 0).
Proof. vm_compute. repeat split; discriminate. Qed.


(** C5, as stated, fails: a write button without a card type sends a body
    without a [card_type] field. *)
Lemma card_type_left_out :
  dataset (buttons home 2) !! "topic"%string = Some (js "Launch Plan")
  /\ dataset (buttons home 2) !! "type"%string = None
  /\ sent_body write 2 home
     = Some (html "{'topic':'Launch Plan','type':'write','views':''}")
  /\ forall C,
       sent_body write 2 home
       <> Some (html "{'topic':'Launch Plan','type':'write','card_type':" ++
                QuoteJSONString C ++ html ",'views':''}").
Proof.
  repeat split; try (vm_compute; reflexivity).
  intros C. vm_compute. discriminate.
Qed.

(** C8, as stated, fails: a copy button that reads [Copy] does not get that
    label back when the timer fires. *)
Lemma copy_label_not_restored :
  let s := play plain [click write 0;
                       fetch_settles 0 (parsed (JObj [(js "content", JStr (js "Draft"))]))] in
  let reverted := play s [click_copy; clipboard_settles 1 true; timer_fires 2] in
  lastContent s = JStr (js "Draft")
  /\ copy_button s = js "Copy"
  /\ clipboard reverted = js "Draft"
  /\ copy_button reverted = [0xd83d; 0xdccb] ++ js " Copy"
  /\ copy_button reverted <> copy_button s.
Proof. vm_compute. repeat split; discriminate. Qed.

End Runs.

(** * Further properties of the script *)

(** ** Quoting for the request body *)

Lemma list_pair_ind {A} (P : list A -> Prop) :
  P [] -> (forall x, P [x]) ->
  (forall x y l, P l -> P (y :: l) -> P (x :: y :: l)) ->
  forall l, P l.
Proof.
  intros Hnil Hone Hstep l.
  assert (P l /\ forall x, P (x :: l)) as [Hl _]; [|done].
  induction l as [|y l [IH1 IH2]]; [done|].
  split; [done|]. intros x. by apply Hstep.
Qed.

Lemma quote_units_cons (c : N) (rest : jsstring) :
  quote_units (c :: rest)
  = if c =? 8 then [92; 98] ++ quote_units rest
    else if c =? 9 then [92; 116] ++ quote_units rest
    else if c =? 10 then [92; 110] ++ quote_units rest
    else if c =? 12 then [92; 102] ++ quote_units rest
    else if c =? 13 then [92; 114] ++ quote_units rest
    else if c =? 34 then [92; 34] ++ quote_units rest
    else if c =? 92 then [92; 92] ++ quote_units rest
    else if c <? 32 then unicode_escape c ++ quote_units rest
    else if is_leading_surrogate c then
      match rest with
      | c2 :: rest2 =>
          if is_trailing_surrogate c2 then c :: c2 :: quote_units rest2
          else unicode_escape c ++ quote_units rest
      | [] => unicode_escape c
      end
    else if is_trailing_surrogate c then unicode_escape c ++ quote_units rest
    else c :: quote_units rest.
Proof. by destruct rest. Qed.

Lemma hex_digit_printable (n : N) : 32 <= hex_digit n.
Proof. unfold hex_digit. destruct (n <? 10); lia. Qed.

Lemma unicode_escape_printable (c : N) : Forall (fun u => 32 <= u) (unicode_escape c).
Proof.
  unfold unicode_escape.
  repeat (apply Forall_cons; split; [first [apply hex_digit_printable | lia]|]).
  apply Forall_nil_2.
Qed.

Lemma surrogate_printable (c : N) :
  is_leading_surrogate c || is_trailing_surrogate c = true -> 32 <= c.
Proof.
  unfold is_leading_surrogate, is_trailing_surrogate.
  rewrite orb_true_iff, !andb_true_iff, !N.leb_le. lia.
Qed.

(** X4. Whatever the text, its quoted form holds no control character: the
    short escapes and the [\u] escapes are made of printable code units, and
    every other code unit is passed on only if it is 32 or more. *)
Theorem quote_units_printable (s : jsstring) :
  Forall (fun u => 32 <= u) (quote_units s).
Proof.
  induction s as [|c|c c2 rest IHrest IHnext] using list_pair_ind.
  - apply Forall_nil_2.
  - rewrite quote_units_cons. change (quote_units []) with (@nil N).
    pose proof (unicode_escape_printable c) as Hesc.
    pose proof (surrogate_printable c) as Hsur.
    repeat case_match; rewrite ?app_nil_r; try done;
      try (repeat (apply Forall_cons; split; [lia|]); apply Forall_nil_2).
    + apply Forall_cons. split; [|apply Forall_nil_2].
      apply N.ltb_ge. done.
  - rewrite quote_units_cons.
    pose proof (unicode_escape_printable c) as Hesc.
    pose proof (surrogate_printable c) as Hsur.
    pose proof (surrogate_printable c2) as Hsur2.
    repeat case_match;
      try (apply Forall_app; split; [|done]);
      try done;
      try (repeat (apply Forall_cons; split; [lia|]); apply Forall_nil_2).
    + apply Forall_cons. split; [apply Hsur; by rewrite orb_true_iff; left|].
      apply Forall_cons. split; [apply Hsur2; by rewrite orb_true_iff; right|done].
    + apply Forall_cons. split; [by apply N.ltb_ge|done].
Qed.

(** X5. Text made of plain code units only (no control character, double
    quote, backslash or surrogate) is sent as it is, between two double
    quotes. *)
Theorem quote_plain_text (s : jsstring) :
  Forall (fun c => plain_unit c = true) s ->
  QuoteJSONString s = [34] ++ s ++ [34].
Proof.
  intros Hs. unfold QuoteJSONString. f_equal. f_equal.
  induction Hs as [|c s Hc _ IH]; [done|].
  rewrite quote_units_cons, IH.
  unfold plain_unit in Hc.
  rewrite !andb_true_iff, !negb_true_iff, N.leb_le in Hc.
  destruct Hc as ((((Hge & Hq) & Hb) & Hlead) & Htrail).
  rewrite Hq, Hb, Hlead, Htrail.
  destruct (N.ltb_spec c 32); [lia|].
  destruct (N.eqb_spec c 8); [lia|]. destruct (N.eqb_spec c 9); [lia|].
  destruct (N.eqb_spec c 10); [lia|]. destruct (N.eqb_spec c 12); [lia|].
  destruct (N.eqb_spec c 13); [lia|]. done.
Qed.

Lemma unhex_hex_digit (n : N) : n < 16 -> unhex (hex_digit n) = Some n.
Proof.
  intros Hn. unfold hex_digit, unhex.
  destruct (N.ltb_spec n 10).
  - replace ((48 <=? 48 + n) && (48 + n <=? 57)) with true; [f_equal; lia|].
    symmetry. rewrite andb_true_iff, !N.leb_le. lia.
  - replace ((48 <=? 87 + n) && (87 + n <=? 57)) with false.
    + replace ((97 <=? 87 + n) && (87 + n <=? 102)) with true; [f_equal; lia|].
      symmetry. rewrite andb_true_iff, !N.leb_le. lia.
    + symmetry. rewrite andb_false_iff, !N.leb_gt. lia.
Qed.

Lemma hex_digits_recompose (c : N) :
  c < 65536 ->
  4096 * (c / 4096 mod 16) + 256 * (c / 256 mod 16)
  + 16 * (c / 16 mod 16) + c mod 16 = c.
Proof.
  intros Hc.
  pose proof (N.div_mod c 16 ltac:(lia)) as H1.
  pose proof (N.div_mod (c / 16) 16 ltac:(lia)) as H2.
  pose proof (N.div_mod (c / 256) 16 ltac:(lia)) as H3.
  rewrite N.Div0.div_div in H2. rewrite N.Div0.div_div in H3.
  change (16 * 16) with 256 in H2. change (256 * 16) with 4096 in H3.
  assert (c / 4096 < 16) as H4 by (apply N.Div0.div_lt_upper_bound; lia).
  rewrite (N.mod_small (c / 4096) 16 H4). lia.
Qed.

Lemma unquote_unicode_escape (c : N) (rest : jsstring) :
  c < 65536 ->
  unquote_units (unicode_escape c ++ rest)
  = match unquote_units rest with
    | Some r => Some (c :: r)
    | None => None
    end.
Proof.
  intros Hc. unfold unicode_escape.
  change (unquote_units (_ ++ rest))
    with (match unhex4 (hex_digit (c / 4096 mod 16)) (hex_digit (c / 256 mod 16))
                  (hex_digit (c / 16 mod 16)) (hex_digit (c mod 16)),
                unquote_units rest with
          | Some u, Some r => Some (u :: r)
          | _, _ => None
          end).
  unfold unhex4.
  rewrite !unhex_hex_digit by (apply N.mod_lt; lia).
  by rewrite (hex_digits_recompose c Hc).
Qed.

Lemma unquote_short_escape (e u : N) (rest : jsstring) :
  e <> 117 -> unescape e = Some u ->
  unquote_units (92 :: e :: rest)
  = match unquote_units rest with
    | Some r => Some (u :: r)
    | None => None
    end.
Proof.
  intros He Hu.
  change (unquote_units (92 :: e :: rest))
    with (if e =? 117 then
            match rest with
            | h1 :: h2 :: h3 :: h4 :: rest2 =>
                match unhex4 h1 h2 h3 h4, unquote_units rest2 with
                | Some u, Some r => Some (u :: r)
                | _, _ => None
                end
            | _ => None
            end
          else match unescape e, unquote_units rest with
               | Some u, Some r => Some (u :: r)
               | _, _ => None
               end).
  destruct (N.eqb_spec e 117); [done|]. by rewrite Hu.
Qed.

Lemma unquote_plain (c : N) (rest : jsstring) :
  c <> 92 -> c <> 34 -> 32 <= c ->
  unquote_units (c :: rest)
  = match unquote_units rest with
    | Some r => Some (c :: r)
    | None => None
    end.
Proof.
  intros Hb Hq Hge.
  change (unquote_units (c :: rest))
    with (if c =? 92 then
            match rest with
            | [] => None
            | e :: rest1 =>
                if e =? 117 then
                  match rest1 with
                  | h1 :: h2 :: h3 :: h4 :: rest2 =>
                      match unhex4 h1 h2 h3 h4, unquote_units rest2 with
                      | Some u, Some r => Some (u :: r)
                      | _, _ => None
                      end
                  | _ => None
                  end
                else match unescape e, unquote_units rest1 with
                     | Some u, Some r => Some (u :: r)
                     | _, _ => None
                     end
            end
          else if (c =? 34) || (c <? 32) then None
          else match unquote_units rest with
               | Some r => Some (c :: r)
               | None => None
               end).
  destruct (N.eqb_spec c 92); [done|].
  destruct (N.eqb_spec c 34); [done|].
  destruct (N.ltb_spec c 32); [lia|]. done.
Qed.

Lemma surrogate_bounds (c : N) :
  is_leading_surrogate c || is_trailing_surrogate c = true ->
  32 <= c /\ c < 65536 /\ c <> 34 /\ c <> 92.
Proof.
  unfold is_leading_surrogate, is_trailing_surrogate.
  rewrite orb_true_iff, !andb_true_iff, !N.leb_le. lia.
Qed.

Lemma unquote_quote_step (c : N) (rest : jsstring) :
  unquote_units (quote_units rest) = Some rest ->
  (forall c2 rest2, rest = c2 :: rest2 ->
     unquote_units (quote_units rest2) = Some rest2) ->
  unquote_units (quote_units (c :: rest)) = Some (c :: rest).
Proof.
  intros IH IH2. rewrite quote_units_cons.
  destruct (N.eqb_spec c 8) as [->|H8].
  { cbn [app]. rewrite (unquote_short_escape 98 8) by done. by rewrite IH. }
  destruct (N.eqb_spec c 9) as [->|H9].
  { cbn [app]. rewrite (unquote_short_escape 116 9) by done. by rewrite IH. }
  destruct (N.eqb_spec c 10) as [->|H10].
  { cbn [app]. rewrite (unquote_short_escape 110 10) by done. by rewrite IH. }
  destruct (N.eqb_spec c 12) as [->|H12].
  { cbn [app]. rewrite (unquote_short_escape 102 12) by done. by rewrite IH. }
  destruct (N.eqb_spec c 13) as [->|H13].
  { cbn [app]. rewrite (unquote_short_escape 114 13) by done. by rewrite IH. }
  destruct (N.eqb_spec c 34) as [->|H34].
  { cbn [app]. rewrite (unquote_short_escape 34 34) by done. by rewrite IH. }
  destruct (N.eqb_spec c 92) as [->|H92].
  { cbn [app]. rewrite (unquote_short_escape 92 92) by done. by rewrite IH. }
  destruct (N.ltb_spec c 32) as [Hlow|Hge].
  { rewrite unquote_unicode_escape by lia. by rewrite IH. }
  destruct (is_leading_surrogate c) eqn:Hlead.
  { destruct (surrogate_bounds c) as (_ & Hc & _); [by rewrite Hlead|].
    destruct rest as [|c2 rest2].
    - rewrite <- (app_nil_r (unicode_escape c)).
      by rewrite unquote_unicode_escape.
    - destruct (is_trailing_surrogate c2) eqn:Htrail2.
      + destruct (surrogate_bounds c2) as (Hge2 & _ & Hq2 & Hb2).
        { rewrite Htrail2. apply orb_true_r. }
        rewrite unquote_plain, unquote_plain by done.
        by rewrite (IH2 c2 rest2 eq_refl).
      + rewrite unquote_unicode_escape by done. by rewrite IH. }
  destruct (is_trailing_surrogate c) eqn:Htrail.
  { destruct (surrogate_bounds c) as (_ & Hc & _).
    { rewrite Htrail. apply orb_true_r. }
    rewrite unquote_unicode_escape by done. by rewrite IH. }
  rewrite unquote_plain by done. by rewrite IH.
Qed.

(** A reader of JSON gets back from the quoted text the very code units that
    were quoted, lone surrogates included. *)
Lemma unquote_quote_units (s : jsstring) :
  unquote_units (quote_units s) = Some s.
Proof.
  induction s as [|c|c c2 rest IHrest IHnext] using list_pair_ind.
  - done.
  - by apply unquote_quote_step.
  - apply unquote_quote_step; [done|]. by intros ? ? [= <- <-].
Qed.

(** X3. Quoting loses nothing: two different texts never have the same
    quoted form, so the server can tell apart any two topics, card types,
    views, big bets or labels. *)
Theorem QuoteJSONString_injective (s t : jsstring) :
  s <> t -> QuoteJSONString s <> QuoteJSONString t.
Proof.
  intros Hne Heq. apply Hne. unfold QuoteJSONString in Heq.
  apply app_inv_head, app_inv_tail in Heq.
  apply (f_equal unquote_units) in Heq.
  rewrite !unquote_quote_units in Heq. congruence.
Qed.

(** ** More on the request *)

Section MoreRequest.
Context {template : Template} {engine : Engine}.

(** X6. Whatever the handler and whatever the button carries, a click sends
    exactly one request: the tasks in flight after the click are those
    before it and one call more, under the next free number.  That call goes
    to the path [/api/write/] followed by the slug of the page, with the
    method [POST] and the one header [Content-Type: application/json], and
    it remembers the handler and the button. *)
Theorem request_endpoint (a : action) (btn : nat) (s : page) :
  exists c,
    pending (step s (click a btn)) = <[next_id s := fetch_task c]> (pending s)
    /\ next_id (step s (click a btn)) = S (next_id s)
    /\ issued a btn s = Some c
    /\ call_action c = a
    /\ call_btn c = btn
    /\ url (call_request c) = js "/api/write/" ++ SLUG
    /\ method (call_request c) = js "POST"
    /\ headers (call_request c) = [(js "Content-Type", js "application/json")].
Proof.
  unfold issued. destruct a; simpl; rewrite lookup_insert_eq;
    eexists; (split; [reflexivity|]); done.
Qed.

(** X7. A big-bet attribute that is present but empty counts as missing: the
    explain request carries the [BIGBET] of the page. *)
Theorem empty_big_bet_is_default (btn : nat) (s : page) (T : jsstring) :
  let data := dataset (buttons s btn) in
  data !! "topic"%string = Some T ->
  data !! "bigbet"%string = Some [] ->
  sent_body explain btn s
  = Some (html "{'topic':" ++ QuoteJSONString T ++
          html ",'type':'explain','big_bet':" ++ QuoteJSONString BIGBET ++
          html ",'label':" ++ QuoteJSONString (default [] (data !! "label"%string)) ++
          js "}").
Proof.
  intros data Htopic Hbet. subst data.
  rewrite sent_body_explain, Htopic, Hbet, stringify_four. reflexivity.
Qed.

(** X8. A button without a topic is not refused.  The write and start
    handlers put the word [undefined] where the title has the topic, and
    each of the three handlers sends a body without a [topic] field; a card
    type that is missing too is left out in the same way. *)
Theorem missing_topic (btn : nat) (s : page) :
  let data := dataset (buttons s btn) in
  let card_type := match data !! "type"%string with
                   | Some C => html "'card_type':" ++ QuoteJSONString C ++ js ","
                   | None => []
                   end in
  let views := default [] (data !! "views"%string) in
  let big_bet := match data !! "bigbet"%string with
                 | Some (c :: B) => c :: B
                 | _ => BIGBET
                 end in
  let label := default [] (data !! "label"%string) in
  data !! "topic"%string = None ->
  wmTitle (invoke write btn s) = [0x270d; 0xfe0f] ++ js " undefined"
  /\ wmTitle (invoke start btn s)
     = [0xd83d; 0xde80] ++ js " Getting You Started: undefined"
  /\ sent_body write btn s
     = Some (html "{'type':'write'," ++ card_type ++
             html "'views':" ++ QuoteJSONString views ++ js "}")
  /\ sent_body start btn s
     = Some (html "{'type':'start'," ++ card_type ++
             html "'views':" ++ QuoteJSONString views ++ js "}")
  /\ sent_body explain btn s
     = Some (html "{'type':'explain','big_bet':" ++ QuoteJSONString big_bet ++
             html ",'label':" ++ QuoteJSONString label ++ js "}").
Proof.
  intros data card_type views big_bet label Htopic.
  subst data card_type views big_bet label.
  split; [simpl; by rewrite Htopic|]. split; [simpl; by rewrite Htopic|].
  rewrite sent_body_write, sent_body_start, sent_body_explain, Htopic.
  unfold or_else.
  destruct (dataset (buttons s btn) !! "type"%string) as [C|];
    destruct (dataset (buttons s btn) !! "bigbet"%string) as [[|b B]|];
    unfold JSON_stringify; cbn [omap list_omap join fst snd];
    rewrite <- ?app_assoc; repeat split; reflexivity.
Qed.

End MoreRequest.

(** ** The overlay *)

Section MoreOverlay.
Context {template : Template} {engine : Engine}.

Lemma classList_invoke (a : action) (btn : nat) (s : page) :
  classList (invoke a btn s) = add_token (js "active") (classList s).
Proof. by destruct a. Qed.

Lemma remove_add_token (t : jsstring) (l : list jsstring) :
  remove_token t (add_token t l) = remove_token t l.
Proof.
  unfold add_token, remove_token. case_bool_decide; [done|].
  rewrite filter_app. unfold filter at 2. simpl.
  rewrite decide_False by (by intros H'; apply H').
  apply app_nil_r.
Qed.

(** X9. A click of any of the three kinds shows the overlay in its loading
    state at once: the overlay has the class [active], its other classes are
    kept, and the body of the modal is the spinner with the message of the
    handler, which names the voice of the page for a write only.  What was
    in the body is gone, but [lastContent] still holds the previous
    result. *)
Theorem click_shows_loading (a : action) (btn : nat) (s : page) :
  let s' := step s (click a btn) in
  js "active" ∈ classList s'
  /\ (forall t, t <> js "active" -> t ∈ classList s' <-> t ∈ classList s)
  /\ wmContent s'
     = html "<div class='wm-loading'><div class='spinner'></div><div>" ++
       match a with
       | write => js "Writing in " ++ CH ++ js "'s voice..."
       | start => js "Building your starting framework..."
       | explain => js "Building deep explanation..."
       end ++ js "</div></div>"
  /\ lastContent s' = lastContent s.
Proof.
  intros s'. subst s'. cbn [step]. rewrite classList_invoke.
  unfold add_token. repeat split.
  - case_bool_decide; [done|]. rewrite elem_of_app, list_elem_of_singleton. by right.
  - case_bool_decide; [done|].
    rewrite elem_of_app, list_elem_of_singleton. tauto.
  - case_bool_decide; [done|].
    rewrite elem_of_app, list_elem_of_singleton. tauto.
  - by destruct a.
  - by destruct a.
Qed.

(** X12. Closing after a click leaves the overlay with the classes it would
    have had if it had been closed before the click, and closing twice is
    closing once. *)
Theorem close_undoes_open (a : action) (btn : nat) (s : page) :
  classList (run s [click a btn; click_close]) = classList (run s [click_close])
  /\ classList (run s [click_close; click_close]) = classList (run s [click_close]).
Proof.
  cbn [run foldl step]. split.
  - unfold closeWriter at 1. cbn [classList set_classList].
    rewrite classList_invoke. apply remove_add_token.
  - unfold closeWriter. cbn [classList set_classList]. unfold remove_token.
    rewrite list_filter_filter. apply list_filter_iff. tauto.
Qed.

(** The class list after an event is the one before, or that with [active]
    added, or that with [active] removed. *)
Lemma classList_step (s : page) (ev : event) :
  classList (step s ev)
  = match ev with
    | click _ _ => add_token (js "active") (classList s)
    | click_close => remove_token (js "active") (classList s)
    | _ => classList s
    end.
Proof.
  destruct ev as [a btn| | |id o|id written|id]; cbn [step].
  - apply classList_invoke.
  - done.
  - unfold copyContent. by destruct (ToString (lastContent s)).
  - destruct (pending s !! id) as [[c| |]|]; try done.
    rewrite resume_eq. unfold try_render.
    destruct (_callServer_response o) as [text|e]; [|done].
    by destruct (replace_call text).
  - destruct (pending s !! id) as [[|text|]|]; try done. by destruct written.
  - destruct (pending s !! id) as [[| |delay cb]|]; try done. by destruct cb.
Qed.

Lemma wmTitle_step (s : page) (ev : event) :
  (forall a btn, ev <> click a btn) -> wmTitle (step s ev) = wmTitle s.
Proof.
  intros Hev. destruct ev as [a btn| | |id o|id written|id]; cbn [step].
  - by destruct (Hev a btn).
  - done.
  - unfold copyContent. by destruct (ToString (lastContent s)).
  - destruct (pending s !! id) as [[c| |]|]; try done.
    rewrite resume_eq. unfold try_render.
    destruct (_callServer_response o) as [text|e]; [|done].
    by destruct (replace_call text).
  - destruct (pending s !! id) as [[|text|]|]; try done. by destruct written.
  - destruct (pending s !! id) as [[| |delay cb]|]; try done. by destruct cb.
Qed.

(** X11. Only a click on a triggering button or on the close button changes
    the classes of the overlay, and only a click on a triggering button
    changes the title.  An answer from the server, a finished clipboard
    write, a timer and a click on the copy button leave both alone: an
    overlay that was closed while the request ran stays closed when the
    answer comes. *)
Theorem overlay_moves_on_clicks_only (s : page) (ev : event) :
  (forall a btn, ev <> click a btn) ->
  wmTitle (step s ev) = wmTitle s
  /\ (ev <> click_close -> classList (step s ev) = classList s).
Proof.
  intros Hev. split; [by apply wmTitle_step|].
  intros Hclose. rewrite classList_step.
  destruct ev; try done. by destruct (Hev a btn).
Qed.

(** X10. The classes of the overlay stay a set: if no class is listed twice
    at the start, none is listed twice after any run of events. *)
Theorem classList_stays_set (evs : list event) (s : page) :
  NoDup (classList s) -> NoDup (classList (run s evs)).
Proof.
  revert s. induction evs as [|ev evs IH]; intros s Hs; [done|].
  cbn [run foldl]. apply IH. rewrite classList_step.
  destruct ev; try done.
  - unfold add_token. case_bool_decide as Hin; [done|].
    apply NoDup_app. repeat split; [done| |apply NoDup_singleton].
    intros t Ht ->%list_elem_of_singleton. done.
  - by apply NoDup_filter.
Qed.

End MoreOverlay.

(** ** What the events leave alone *)

Section Frames.
Context {template : Template} {engine : Engine}.

Lemma buttons_try_render (r : completion json) (s : page) :
  buttons (try_render r s) = buttons s.
Proof.
  unfold try_render. destruct r as [text|e]; [|done].
  by destruct (replace_call text).
Qed.

(** The buttons after an event: a click relabels its button, a settled
    request relabels the button of its call, nothing else touches a button. *)
Lemma buttons_step (s : page) (ev : event) (b : nat) :
  buttons (step s ev) b = buttons s b
  \/ exists d t,
       buttons (step s ev) b = set_textContent t (set_disabled d (buttons s b)).
Proof.
  destruct ev as [a btn| | |id o|id written|id]; cbn [step].
  - rewrite buttons_invoke. destruct (decide (btn = b)) as [->|Hne].
    + right. rewrite fn_lookup_insert. by eexists _, _.
    + left. by rewrite fn_lookup_insert_ne.
  - by left.
  - left. unfold copyContent. by destruct (ToString (lastContent s)).
  - destruct (pending s !! id) as [[c| |]|]; try by left.
    rewrite resume_eq. unfold label_button. cbn [buttons set_buttons].
    rewrite buttons_try_render. cbn [buttons retire set_pending].
    destruct (decide (call_btn c = b)) as [->|Hne].
    + right. rewrite fn_lookup_insert. by eexists _, _.
    + left. by rewrite fn_lookup_insert_ne.
  - left. destruct (pending s !! id) as [[|text|]|]; try done. by destruct written.
  - left. destruct (pending s !! id) as [[| |delay cb]|]; try done. by destruct cb.
Qed.

(** X13. No event ever changes the data attributes of a button: after any
    run, every button carries the topic, card type, views, big bet and label
    it started with. *)
Theorem dataset_never_changes (evs : list event) (s : page) (b : nat) :
  dataset (buttons (run s evs) b) = dataset (buttons s b).
Proof.
  revert s. induction evs as [|ev evs IH]; intros s; [done|].
  cbn [run foldl]. fold (run (step s ev) evs). rewrite IH.
  destruct (buttons_step s ev b) as [->|(d & t & ->)]; done.
Qed.

(** X14. A click changes the button that was clicked and no other; a settled
    request changes the button of its call and no other. *)
Theorem other_buttons_untouched (a : action) (btn b : nat) (s : page) :
  b <> btn ->
  buttons (step s (click a btn)) b = buttons s b
  /\ forall id c o,
       pending s !! id = Some (fetch_task c) -> call_btn c = btn ->
       buttons (step s (fetch_settles id o)) b = buttons s b.
Proof.
  intros Hne. split.
  - cbn [step]. rewrite buttons_invoke. by rewrite fn_lookup_insert_ne.
  - intros id c o Hc Hbtn.
    rewrite (step_fetch_settles _ _ _ _ Hc), resume_eq.
    unfold label_button. cbn [buttons set_buttons].
    rewrite buttons_try_render, Hbtn. by rewrite fn_lookup_insert_ne.
Qed.

(** X15. [lastContent] changes when a request settles and at no other time:
    a click, closing, copying, a finished clipboard write and a timer leave
    it as it is. *)
Theorem lastContent_changes_on_settlement_only (s : page) (ev : event) :
  (forall id o, ev <> fetch_settles id o) ->
  lastContent (step s ev) = lastContent s.
Proof.
  intros Hev. destruct ev as [a btn| | |id o|id written|id]; cbn [step].
  - by destruct a.
  - done.
  - unfold copyContent. by destruct (ToString (lastContent s)).
  - by destruct (Hev id o).
  - destruct (pending s !! id) as [[|text|]|]; try done. by destruct written.
  - destruct (pending s !! id) as [[| |delay cb]|]; try done. by destruct cb.
Qed.

(** X16. Requests come from clicks and from nothing else: a request that is
    in flight after an event other than a click on a triggering button was
    already in flight before it.  No settlement, success or failure, sends
    a request of its own. *)
Theorem only_clicks_send (s : page) (ev : event) (id : nat) (c : call) :
  (forall a btn, ev <> click a btn) ->
  pending (step s ev) !! id = Some (fetch_task c) ->
  pending s !! id = Some (fetch_task c).
Proof.
  intros Hev. destruct ev as [a btn| | |m o|m written|m]; cbn [step].
  - by destruct (Hev a btn).
  - done.
  - unfold copyContent. destruct (ToString (lastContent s)); [|done].
    cbn [pending spawn set_pending]. rewrite lookup_insert.
    case_decide; [done|]. done.
  - destruct (pending s !! m) as [[c'| |]|] eqn:Hm; try done.
    destruct (pending_resume c' o (retire m s)) as [-> _].
    cbn [pending retire set_pending]. rewrite lookup_delete.
    case_decide; done.
  - destruct (pending s !! m) as [[|text|]|] eqn:Hm; try done.
    destruct written.
    + unfold copyContent_then. cbn [pending spawn set_pending set_copy_button
        set_clipboard retire next_id].
      rewrite lookup_insert. case_decide; [done|].
      rewrite lookup_delete. case_decide; done.
    + cbn [pending retire set_pending]. rewrite lookup_delete. case_decide; done.
  - destruct (pending s !! m) as [[| |delay cb]|] eqn:Hm; try done.
    destruct cb. cbn [run_callback pending set_copy_button retire set_pending].
    rewrite lookup_delete. case_decide; done.
Qed.

End Frames.

(** ** Answers of other shapes *)

Section MoreSettlement.
Context {template : Template} {engine : Engine}.

Lemma wmContent_try_render (r : completion json) (s s' : page) :
  wmContent (try_render r s) = wmContent (try_render r s').
Proof.
  unfold try_render. destruct r as [text|e]; [|done].
  by destruct (replace_call text).
Qed.

(** X2. Content without a newline goes into the body of the modal as it is,
    between the two tags of the content container: nothing of it is escaped
    or replaced, markup included. *)
Theorem content_without_newline_verbatim
    (s : page) (id : nat) (c : call) (d : json) (err : option json) (X : jsstring) :
  pending s !! id = Some (fetch_task c) ->
  Get d (js "content") = Return (Some (JStr X)) ->
  X <> [] ->
  Get d (js "error") = Return err ->
  ToBoolean err = false ->
  10 ∉ X ->
  wmContent (step s (fetch_settles id (parsed d)))
  = html "<div class='wm-content'>" ++ X ++ js "</div>".
Proof.
  intros Hc Hcontent HX Herr Hfalsy Hline.
  rewrite (step_fetch_settles _ _ _ _ Hc), wmContent_resume.
  rewrite (response_content _ _ _ Herr Hfalsy Hcontent).
  rewrite truthy_true by (simpl; by rewrite eqb_nil_false).
  cbn [from_option Datatypes.id].
  by rewrite try_render_string, wmContent_set, (replace_newlines_id X Hline).
Qed.

(** X17. A [content] that is truthy but not a string (a number, [true], an
    array, an object) is stored in [lastContent] all the same, and only then
    does the handler fail, for want of a [replace] method: the modal shows
    the engine's message as an error while [lastContent] already holds the
    value. *)
Theorem non_string_content_stored
    (s : page) (id : nat) (c : call) (d : json) (err : option json) (v : json) :
  pending s !! id = Some (fetch_task c) ->
  Get d (js "error") = Return err ->
  ToBoolean err = false ->
  Get d (js "content") = Return (Some v) ->
  ToBoolean (Some v) = true ->
  (forall X, v <> JStr X) ->
  let s' := step s (fetch_settles id (parsed d)) in
  lastContent s' = v
  /\ wmContent s'
     = html "<div style='color:#f87171'>Error: " ++ not_function_message ++ js "</div>".
Proof.
  intros Hc Herr Hfalsy Hcontent Htruthy Hv s'. subst s'.
  rewrite (step_fetch_settles _ _ _ _ Hc), wmContent_resume, lastContent_resume.
  rewrite (response_content _ _ _ Herr Hfalsy Hcontent).
  rewrite (truthy_true _ Htruthy). cbn [from_option Datatypes.id].
  destruct v as [|b|n|X|items|members]; try done.
  by destruct (Hv X).
Qed.

(** X18. An answer that parses to something other than an object is not
    refused as such.  For [null] the read of [d.error] throws, and the modal
    shows the engine's message as an error and [lastContent] is kept; a
    boolean, a number, a string or an array has neither field and is
    treated like an empty object. *)
Theorem non_object_response (s : page) (id : nat) (c : call) (d : json) :
  pending s !! id = Some (fetch_task c) ->
  (forall members, d <> JObj members) ->
  let s' := step s (fetch_settles id (parsed d)) in
  match d with
  | JNull =>
      wmContent s'
      = html "<div style='color:#f87171'>Error: " ++ null_read_message ++ js "</div>"
      /\ lastContent s' = lastContent s
  | _ =>
      wmContent s'
      = html "<div class='wm-content'>" ++ js "No content generated." ++ js "</div>"
      /\ lastContent s' = JStr (js "No content generated.")
  end.
Proof.
  intros Hc Hd s'. subst s'.
  rewrite (step_fetch_settles _ _ _ _ Hc), wmContent_resume, lastContent_resume.
  destruct d as [|b|n|X|items|members]; try done.
  by destruct (Hd members).
Qed.

(** X19. A truthy [error] of any type is an error: the modal shows its
    string form, as [new Error] makes it, or, for an object whose own
    [toString] member hides the method, the message of the [TypeError]
    thrown in making it. *)
Theorem error_value_rendered
    (s : page) (id : nat) (c : call) (d : json) (v : json) :
  pending s !! id = Some (fetch_task c) ->
  Get d (js "error") = Return (Some v) ->
  ToBoolean (Some v) = true ->
  wmContent (step s (fetch_settles id (parsed d)))
  = html "<div style='color:#f87171'>Error: " ++
    match ToString v with
    | Return m => m
    | Throw e => message e
    end ++ js "</div>".
Proof.
  intros Hc Herr Htruthy.
  rewrite (step_fetch_settles _ _ _ _ Hc), wmContent_resume.
  cbn [_callServer_response]. rewrite Herr. cbn [bind].
  rewrite (truthy_true _ Htruthy). unfold new_Error.
  by destruct (ToString v).
Qed.

(** X20. Of two requests in flight, the one that settles last fills the
    body of the modal, whichever was sent first and whichever buttons sent
    them: the earlier answer leaves no trace in the body. *)
Theorem last_settled_wins
    (s : page) (id1 id2 : nat) (c1 c2 : call) (o1 o2 : outcome) :
  pending s !! id1 = Some (fetch_task c1) ->
  pending s !! id2 = Some (fetch_task c2) ->
  id1 <> id2 ->
  wmContent (run s [fetch_settles id1 o1; fetch_settles id2 o2])
  = wmContent (run s [fetch_settles id2 o2]).
Proof.
  intros H1 H2 Hne. cbn [run foldl].
  assert (pending (step s (fetch_settles id1 o1)) !! id2 = Some (fetch_task c2)) as H2'.
  { rewrite (step_fetch_settles _ _ _ _ H1).
    destruct (pending_resume c1 o1 (retire id1 s)) as [-> _].
    cbn [pending retire set_pending]. by rewrite lookup_delete_ne. }
  rewrite (step_fetch_settles _ _ _ _ H2'), (step_fetch_settles _ _ _ _ H2).
  rewrite !wmContent_resume. apply wmContent_try_render.
Qed.

(** X22. While a new request is loading, the copy button still copies the
    result of the previous one: a click does not clear [lastContent]. *)
Theorem copy_while_loading (a : action) (btn : nat) (s : page) (X : jsstring) :
  lastContent s = JStr X ->
  pending (run s [click a btn; click_copy]) !! S (next_id s)
  = Some (clipboard_task X).
Proof.
  intros HX. cbn [run foldl].
  assert (lastContent (step s (click a btn)) = JStr X) as HX'.
  { rewrite <- HX. by destruct a. }
  assert (next_id (step s (click a btn)) = S (next_id s)) as Hn.
  { by destruct a. }
  cbn [step] in *. unfold copyContent. rewrite HX'. cbn [ToString].
  unfold spawn. cbn [pending set_pending]. rewrite Hn. apply lookup_insert_eq.
Qed.

End MoreSettlement.

(** ** More runs on the sample page *)

Section MoreRuns.
#[local] Existing Instance Sample.rendered.
#[local] Existing Instance Sample.v8.

Import Sample.

(** Markup in the content goes into the body as it is. *)
Lemma content_without_newline_verbatim_run :
  wmContent (step (run home [click write 0])
               (fetch_settles 0
                  (parsed (JObj [(js "content", JStr (js "<b>Plan</b> & more"))]))))
  = html "<div class='wm-content'>" ++ js "<b>Plan</b> & more" ++ js "</div>".
Proof.
  refine (content_without_newline_verbatim (run home [click write 0]) 0 _
            (JObj [(js "content", JStr (js "<b>Plan</b> & more"))]) None
            (js "<b>Plan</b> & more") _ _ _ _ _ _).
  - vm_compute. reflexivity.
  - reflexivity.
  - discriminate.
  - reflexivity.
  - reflexivity.
  - apply literal_no_newline. vm_compute. reflexivity.
Defined.

(** A line break and the two characters that spell its escape are told
    apart. *)
Lemma QuoteJSONString_injective_run :
  QuoteJSONString (js "a" ++ [10] ++ js "b") <> QuoteJSONString (js "a\nb").
Proof.
  apply QuoteJSONString_injective. intros H. vm_compute in H. discriminate H.
Defined.

Lemma quote_plain_text_run :
  QuoteJSONString (js "Launch Plan") = [34] ++ js "Launch Plan" ++ [34].
Proof.
  apply quote_plain_text. apply List.Forall_forall, List.forallb_forall.
  vm_compute. reflexivity.
Defined.

(** An explain button whose big-bet attribute is empty. *)
Lemma empty_big_bet_is_default_run :
  let s := set_buttons
             (fun _ => {| disabled := false; textContent := [];
                          dataset := {[ "topic"%string := js "Pricing";
                                        "bigbet"%string := [] ]} |}) home in
  sent_body explain 0 s
  = Some (html "{'topic':" ++ QuoteJSONString (js "Pricing") ++
          html ",'type':'explain','big_bet':" ++ QuoteJSONString BIGBET ++
          html ",'label':" ++
          QuoteJSONString (default [] (dataset (buttons s 0) !! "label"%string)) ++
          js "}").
Proof.
  intros s.
  refine (empty_big_bet_is_default 0 s (js "Pricing") _ _); reflexivity.
Defined.

(** Button 3 of the sample page carries nothing. *)
Lemma missing_topic_run :
  wmTitle (invoke write 3 home) = [0x270d; 0xfe0f] ++ js " undefined"
  /\ wmTitle (invoke start 3 home)
     = [0xd83d; 0xde80] ++ js " Getting You Started: undefined"
  /\ sent_body write 3 home = Some (html "{'type':'write','views':''}")
  /\ sent_body start 3 home = Some (html "{'type':'start','views':''}")
  /\ sent_body explain 3 home
     = Some (html "{'type':'explain','big_bet':'Own the niche','label':''}").
Proof. exact (missing_topic 3 home eq_refl). Defined.

Lemma classList_stays_set_run :
  NoDup (classList (run home [click write 0; click_close; click explain 1; click start 0])).
Proof.
  apply classList_stays_set. apply NoDup_singleton.
Defined.

(** The overlay is closed while the request runs, and stays closed. *)
Lemma overlay_moves_on_clicks_only_run :
  let s := run home [click write 0; click_close] in
  let ev := fetch_settles 0 (parsed (JObj [(js "content", JStr (js "Draft"))])) in
  wmTitle (step s ev) = wmTitle s
  /\ (ev <> click_close -> classList (step s ev) = classList s).
Proof.
  intros s ev. refine (overlay_moves_on_clicks_only s ev _). discriminate.
Defined.

Lemma other_buttons_untouched_run :
  buttons (step home (click write 0)) 1 = buttons home 1
  /\ forall id c o,
       pending home !! id = Some (fetch_task c) -> call_btn c = 0%nat ->
       buttons (step home (fetch_settles id o)) 1 = buttons home 1.
Proof.
  refine (other_buttons_untouched write 0 1 home _). discriminate.
Defined.

Lemma lastContent_changes_on_settlement_only_run :
  lastContent (step home click_copy) = lastContent home.
Proof.
  refine (lastContent_changes_on_settlement_only home click_copy _). discriminate.
Defined.

(** The request in flight after the overlay is closed was in flight before. *)
Lemma only_clicks_send_run :
  exists c, pending (run home [click write 0]) !! 0%nat = Some (fetch_task c).
Proof.
  eexists.
  refine (only_clicks_send (run home [click write 0]) click_close 0 _ _ _).
  - discriminate.
  - vm_compute. reflexivity.
Defined.

(** The server answers with a number for content. *)
Lemma non_string_content_stored_run :
  let n := JNum {| num_truthy := true; num_text := js "42" |} in
  let s' := step (run home [click write 0])
              (fetch_settles 0 (parsed (JObj [(js "content", n)]))) in
  lastContent s' = n
  /\ wmContent s'
     = html "<div style='color:#f87171'>Error: " ++ not_function_message ++ js "</div>".
Proof.
  intros n.
  refine (non_string_content_stored (run home [click write 0]) 0 _
            (JObj [(js "content", n)]) None n _ _ _ _ _ _).
  - vm_compute. reflexivity.
  - reflexivity.
  - reflexivity.
  - reflexivity.
  - reflexivity.
  - discriminate.
Defined.

(** The server answers [null]. *)
Lemma non_object_response_run :
  let s := run home [click write 0] in
  let s' := step s (fetch_settles 0 (parsed JNull)) in
  wmContent s'
  = html "<div style='color:#f87171'>Error: " ++ null_read_message ++ js "</div>"
  /\ lastContent s' = lastContent s.
Proof.
  intros s.
  refine (non_object_response s 0 _ JNull _ _).
  - vm_compute. reflexivity.
  - discriminate.
Defined.

(** The server answers with a list of errors. *)
Lemma error_value_rendered_run :
  let v := JArr [JNum {| num_truthy := true; num_text := js "1" |}; JNull;
                 JStr (js "a")] in
  wmContent (step (run home [click write 0])
               (fetch_settles 0 (parsed (JObj [(js "error", v)]))))
  = html "<div style='color:#f87171'>Error: " ++ js "1,,a" ++ js "</div>".
Proof.
  intros v.
  refine (error_value_rendered (run home [click write 0]) 0 _
            (JObj [(js "error", v)]) v _ _ _).
  - vm_compute. reflexivity.
  - reflexivity.
  - reflexivity.
Defined.

(** Two requests overlap and the first one sent settles last. *)
Lemma last_settled_wins_general_run :
  let s := run home [click write 0; click explain 1] in
  let first := parsed (JObj [(js "content", JStr (js "first"))]) in
  let second := parsed (JObj [(js "content", JStr (js "second"))]) in
  wmContent (run s [fetch_settles 1 second; fetch_settles 0 first])
  = wmContent (run s [fetch_settles 0 first]).
Proof.
  intros s first second.
  refine (last_settled_wins s 1 0 _ _ second first _ _ _).
  - vm_compute. reflexivity.
  - vm_compute. reflexivity.
  - discriminate.
Defined.

(** A result is in, a new request is loading, and the copy button is
    clicked. *)
Lemma copy_while_loading_run :
  let s := run home [click write 0;
                     fetch_settles 0 (parsed (JObj [(js "content", JStr (js "Draft"))]))] in
  pending (run s [click start 0; click_copy]) !! S (next_id s)
  = Some (clipboard_task (js "Draft")).
Proof.
  intros s. refine (copy_while_loading start 0 s (js "Draft") _).
  vm_compute. reflexivity.
Defined.

End MoreRuns.

(** ** The labels the script writes *)

Section Labels.
Context {template : Template} {engine : Engine}.

Lemma copy_button_step (s : page) (ev : event) :
  copy_button (step s ev) = copy_button s
  \/ copy_button (step s ev) = 0x2705 :: js " Copied!"
  \/ copy_button (step s ev) = [0xd83d; 0xdccb] ++ js " Copy".
Proof.
  destruct ev as [a btn| | |id o|id written|id]; cbn [step].
  - left. by destruct a.
  - by left.
  - left. unfold copyContent. by destruct (ToString (lastContent s)).
  - left. destruct (pending s !! id) as [[c| |]|]; try done.
    rewrite resume_eq. unfold try_render.
    destruct (_callServer_response o) as [text|e]; [|done].
    by destruct (replace_call text).
  - destruct (pending s !! id) as [[|text|]|]; try by left.
    destruct written; [right; by left|by left].
  - destruct (pending s !! id) as [[| |delay cb]|]; try by left.
    destruct cb. right. by right.
Qed.

(** X23. Whatever happens on the page, the copy button reads what it read at
    the start, or [Copied!] after the check mark, or [Copy] after the
    clipboard pictograph, and never anything else. *)
Theorem copy_button_labels (evs : list event) (s : page) :
  copy_button (run s evs) = copy_button s
  \/ copy_button (run s evs) = 0x2705 :: js " Copied!"
  \/ copy_button (run s evs) = [0xd83d; 0xdccb] ++ js " Copy".
Proof.
  induction evs as [|ev evs IH] using rev_ind; [by left|].
  unfold run in *. rewrite foldl_app. cbn [foldl].
  destruct (copy_button_step (foldl step s evs) ev) as [->|[->| ->]]; auto.
Qed.

Lemma textContent_step (s : page) (ev : event) (b : nat) :
  textContent (buttons (step s ev) b) = textContent (buttons s b)
  \/ exists a, textContent (buttons (step s ev) b) = busy_label a
               \/ textContent (buttons (step s ev) b) = idle_label a.
Proof.
  destruct ev as [a btn| | |id o|id written|id]; cbn [step].
  - rewrite buttons_invoke. destruct (decide (btn = b)) as [->|Hne].
    + right. exists a. left. by rewrite fn_lookup_insert.
    + left. by rewrite fn_lookup_insert_ne.
  - by left.
  - left. unfold copyContent. by destruct (ToString (lastContent s)).
  - destruct (pending s !! id) as [[c| |]|]; try by left.
    rewrite resume_eq. unfold label_button. cbn [buttons set_buttons].
    rewrite buttons_try_render. cbn [buttons retire set_pending].
    destruct (decide (call_btn c = b)) as [->|Hne].
    + right. exists (call_action c). right. by rewrite fn_lookup_insert.
    + left. by rewrite fn_lookup_insert_ne.
  - left. destruct (pending s !! id) as [[|text|]|]; try done. by destruct written.
  - left. destruct (pending s !! id) as [[| |delay cb]|]; try done. by destruct cb.
Qed.

(** X24. Whatever happens on the page, a triggering button reads what it
    read at the start or one of the six labels of the handlers, the busy one
    or the idle one of a write, a start or an explain. *)
Theorem button_labels (evs : list event) (s : page) (b : nat) :
  textContent (buttons (run s evs) b) = textContent (buttons s b)
  \/ exists a, textContent (buttons (run s evs) b) = busy_label a
               \/ textContent (buttons (run s evs) b) = idle_label a.
Proof.
  induction evs as [|ev evs IH] using rev_ind; [by left|].
  unfold run in *. rewrite foldl_app. cbn [foldl].
  destruct (textContent_step (foldl step s evs) ev b) as [->|Hnew]; auto.
Qed.

Lemma copy_button_kept_step (s : page) (ev : event) :
  (forall id delay cb, pending s !! id <> Some (timer_task delay cb)) ->
  (forall id, ev <> clipboard_settles id true) ->
  copy_button (step s ev) = copy_button s
  /\ forall id delay cb, pending (step s ev) !! id <> Some (timer_task delay cb).
Proof.
  intros Hs Hev. destruct ev as [a btn| | |m o|m written|m]; cbn [step].
  - destruct (pending_invoke a btn s) as (c & _ & _ & -> & _).
    split; [by destruct a|]. intros id delay cb.
    rewrite lookup_insert. case_decide; [done|apply Hs].
  - done.
  - unfold copyContent. destruct (ToString (lastContent s)); [|done].
    split; [done|]. intros id delay cb. cbn [pending spawn set_pending].
    rewrite lookup_insert. case_decide; [done|apply Hs].
  - destruct (pending s !! m) as [[c| |]|]; try done.
    destruct (pending_resume c o (retire m s)) as [Hp _].
    split.
    + rewrite resume_eq. unfold try_render.
      destruct (_callServer_response o) as [text|e]; [|done].
      by destruct (replace_call text).
    + intros id delay cb. rewrite Hp. cbn [pending retire set_pending].
      rewrite lookup_delete. case_decide; [done|apply Hs].
  - destruct written; [by destruct (Hev m)|].
    destruct (pending s !! m) as [[|text|]|]; try done.
    split; [done|]. intros id delay cb. cbn [pending retire set_pending].
    rewrite lookup_delete. case_decide; [done|apply Hs].
  - destruct (pending s !! m) as [[| |delay cb]|] eqn:Hm; try done.
    by destruct (Hs m delay cb).
Qed.

(** X21. The copy button changes its label only after a clipboard write that
    succeeded.  From a page on which no timer is running, through any events
    among which no clipboard write succeeds (writes may be refused, requests
    sent and settled, the overlay closed), the copy button keeps its label
    and no timer is set: a refused write shows nothing. *)
Theorem copy_label_kept_without_write (evs : list event) (s : page) :
  (forall id delay cb, pending s !! id <> Some (timer_task delay cb)) ->
  Forall (fun ev => forall id, ev <> clipboard_settles id true) evs ->
  copy_button (run s evs) = copy_button s
  /\ forall id delay cb, pending (run s evs) !! id <> Some (timer_task delay cb).
Proof.
  intros Hs Hevs. revert s Hs.
  induction Hevs as [|ev evs Hev _ IH]; intros s Hs; [done|].
  cbn [run foldl]. fold (run (step s ev) evs).
  destruct (copy_button_kept_step s ev Hs Hev) as [Hlabel Hs'].
  destruct (IH (step s ev) Hs') as [-> Hrun]. done.
Qed.

End Labels.

(** The copy button is clicked and the browser refuses the write, while a
    request is sent and fails. *)
Lemma copy_label_kept_without_write_run :
  let evs := [click_copy; click write 0; clipboard_settles 0 false;
              fetch_settles 1 (fetch_rejected
                                 {| err_class := TypeError;
                                    message := js "Failed to fetch" |});
              timer_fires 2] in
  copy_button (run (template := Sample.rendered) (engine := Sample.v8) Sample.home evs)
  = copy_button Sample.home.
Proof.
  intros evs.
  refine (proj1 (copy_label_kept_without_write (template := Sample.rendered)
                   (engine := Sample.v8) evs Sample.home _ _)).
  - intros id delay cb. cbn [pending Sample.home]. by rewrite lookup_empty.
  - repeat constructor; discriminate.
Defined.
